(** * Admin_tg: users and posts REST backend

    Shallow embedding of the blogging backend (src/base, src/server,
    src/router).  The two relational tables are lists of rows; the
    PostgreSQL sequences that issue primary keys are counters.  Every
    database layer method reads the store, computes the rows to write and
    commits; a failed commit leaves the tables as they were.

    What the code leaves to PostgreSQL and to the network is an input of
    the model: the order in which a query returns rows it does not sort and
    the collation of titles ([DbConfig]), and how each statement of a
    request fares on the connection ([Conn]). *)

From Stdlib Require Import List ZArith String Ascii Bool Lia Sorted Permutation.
Import ListNotations.

Open Scope Z_scope.

(** ** Data model (src/base/model.py) *)

(** Timestamps are [datetime] values, counted in microseconds. *)
Definition datetime := Z.

(** A user row; the [token] column has type UUID and is held as the text
    [str(uuid)] of its value, the text the application reads back. *)
Record User := mkUser {
  u_id : Z;
  u_name : string;
  u_token : string;
  u_login : string;
  u_password : string
}.

Record Post := mkPost {
  p_id : Z;
  p_title : string;
  p_author : Z;
  p_text : string;
  p_created_at : datetime
}.

Record Store := mkStore {
  users : list User;
  posts : list Post;
  users_id_seq : Z;
  post_id_seq : Z
}.

Definition empty_store : Store := mkStore [] [] 1 1.

(** Pydantic request bodies (src/schema). *)
Record SchemaUser := mkSchemaUser {
  su_name : string;
  su_token : string;
  su_login : string;
  su_password : string
}.

Record SchemaVerification := mkSchemaVerification {
  sv_login : string;
  sv_password : string
}.

Record SchemaPost := mkSchemaPost {
  sp_title : string;
  sp_text : string;
  sp_author : Z
}.

(** [id: int], [title: str], [text: str]: every field is required, so a
    validated body carries all three. *)
Record SchemaPostUpdate := mkSchemaPostUpdate {
  spu_id : Z;
  spu_title : string;
  spu_text : string
}.

(** The [filter_params] dict of a listing: each key present or absent. *)
Record FilterParams := mkFilterParams {
  f_desc : option string;
  f_limit : option Z;
  f_author : option Z
}.

(** The dict returned by the database layer methods. *)
Record Result := mkResult {
  status_code : Z;
  r_title : string;
  description : option string
}.

(** ** What the code leaves to the database *)

(** The order in which PostgreSQL returns the rows of a scan the query
    does not sort (any permutation of the table), and the collation that
    orders titles (any total preorder). *)
Class DbConfig := {
  scan_users : list User -> list User;
  scan_posts : list Post -> list Post;
  title_le : string -> string -> bool;
  scan_users_perm : forall l, Permutation (scan_users l) l;
  scan_posts_perm : forall l, Permutation (scan_posts l) l;
  title_le_total : forall a b, title_le a b = true \/ title_le b a = true
}.

(** A freshly written table returns its rows in insertion order; the C
    collation compares titles byte-wise. *)
Definition pg_default : DbConfig := {|
  scan_users := fun l => l;
  scan_posts := fun l => l;
  title_le := String.leb;
  scan_users_perm := @Permutation_refl User;
  scan_posts_perm := @Permutation_refl Post;
  title_le_total := String.leb_total
|}.

(** ** Environment of a request *)

(** How a statement of the request's session fares on the connection: it
    reaches the database ([Reach]); the connection is lost (the driver's
    error, raised by SQLAlchemy as an [OperationalError], which is an
    [SQLAlchemyError]); or the server refuses connections (the driver's
    raw [OSError], which SQLAlchemy does not wrap). *)
Inductive Fault := Reach | Lost | Refused.

(** The fate of the successive statements of a request, one entry for each
    [db.execute] and each [db.commit]; statements past the end of the list
    reach the database.  A [commit] that fails on the connection has not
    reached the server, and nothing of it is applied.  [db.rollback()] is
    not a statement of the model: it only discards the session's pending
    change, which the store never received. *)
Definition Conn := list Fault.

(** The database reachable throughout the request. *)
Definition Up : Conn := [].

(** [StaleDataError]: an ORM UPDATE that matched another number of rows
    than one. *)
Inductive DbError := IntegrityError | OperationalError | DataError | StaleDataError.

(** What a database call raises: an [SQLAlchemyError] of some kind, or the
    raw [OSError] of a refused connection. *)
Inductive Exc := SqlError (e : DbError) | OSError.

(** [import_time]: the value of [datetime.utcnow()] when model.py was
    imported; [now]: the wall clock when the request is served; [uuid]: the
    value [uuid4()] yields during the request. *)
Record Env := mkEnv {
  import_time : datetime;
  now : datetime;
  uuid : Z
}.

(** ** str(uuid.UUID): 8-4-4-4-12 lowercase hexadecimal digits *)

Definition hex_digit (n : Z) : ascii :=
  match String.get (Z.to_nat (n mod 16)) "0123456789abcdef"%string with
  | Some a => a
  | None => "0"%char
  end.

(** The [k] low hexadecimal digits of [n], most significant first. *)
Fixpoint hex_pad (k : nat) (n : Z) : string :=
  match k with
  | O => EmptyString
  | S k' => (hex_pad k' (n / 16) ++ String (hex_digit n) EmptyString)%string
  end.

Definition str_uuid (u : Z) : string :=
  (hex_pad 8 (Z.shiftr u 96) ++ "-" ++ hex_pad 4 (Z.shiftr u 80) ++ "-" ++
   hex_pad 4 (Z.shiftr u 64) ++ "-" ++ hex_pad 4 (Z.shiftr u 48) ++ "-" ++
   hex_pad 12 u)%string.

(** ** A [str] bound to the UUID column (asyncpg's uuid encoder) *)

(** The value of a hexadecimal digit, either case. *)
Definition hex_value (a : ascii) : option Z :=
  let n := Z.of_nat (nat_of_ascii a) in
  if (48 <=? n) && (n <=? 57) then Some (n - 48)
  else if (97 <=? n) && (n <=? 102) then Some (n - 87)
  else if (65 <=? n) && (n <=? 70) then Some (n - 55)
  else None.

(** The digits of a uuid text: hyphens are skipped wherever they stand;
    [acc] is the value read so far and [k] the number of digits. *)
Fixpoint uuid_digits (t : string) (acc : Z) (k : nat) : option (Z * nat) :=
  match t with
  | EmptyString => Some (acc, k)
  | String a r =>
      if Ascii.eqb a "-" then uuid_digits r acc k
      else match hex_value a with
           | Some d => uuid_digits r (acc * 16 + d) (S k)
           | None => None
           end
  end.

(** The uuid a text denotes: 32 to 36 characters holding exactly 32
    hexadecimal digits; any other text is refused when it is bound (a
    [DataError]). *)
Definition parse_uuid (t : string) : option Z :=
  if ((32 <=? String.length t) && (String.length t <=? 36))%nat then
    match uuid_digits t 0 O with
    | Some (v, 32%nat) => Some v
    | _ => None
    end
  else None.

(** ** Python string helpers *)

(** [s.split(c)] for a one-character separator. *)
Fixpoint split_char (c : ascii) (s : string) : list string :=
  match s with
  | EmptyString => [EmptyString]
  | String a r =>
      if Ascii.eqb a c then EmptyString :: split_char c r
      else match split_char c r with
           | x :: xs => String a x :: xs
           | [] => [String a EmptyString]
           end
  end.

(** Whether character [c] occurs in [s]. *)
Fixpoint has_char (c : ascii) (s : string) : bool :=
  match s with
  | EmptyString => false
  | String a r => Ascii.eqb a c || has_char c r
  end.

(** Truthiness of an optional string ([x or default]). *)
Definition py_or (x : option string) (d : string) : string :=
  match x with
  | Some v => if String.eqb v "" then d else v
  | None => d
  end.

(** ** Parameters PostgreSQL refuses *)

(** A text value holding U+0000 is refused when the statement is bound (a
    [DataError], before the statement runs). *)
Definition text_ok (t : string) : bool := negb (has_char "000"%char t).

Definition opt_text_ok (t : option string) : bool :=
  match t with Some v => text_ok v | None => true end.

Definition int4_max : Z := 2147483647.

(** An INTEGER parameter: asyncpg refuses to encode a Python [int] outside
    this range (a [DataError]). *)
Definition int4 (n : Z) : bool := (- 2147483648 <=? n) && (n <=? int4_max).

(** ** The SQL layer *)

(** Insertion sort; [ge a b] says that [a] may come before [b]. *)
Fixpoint insert_by {A} (ge : A -> A -> bool) (x : A) (l : list A) : list A :=
  match l with
  | [] => [x]
  | y :: r => if ge x y then x :: y :: r else y :: insert_by ge x r
  end.

Fixpoint sort_rows {A} (ge : A -> A -> bool) (l : list A) : list A :=
  match l with
  | [] => []
  | x :: r => insert_by ge x (sort_rows ge r)
  end.

Inductive OrderKey := CreatedAtDesc | TitleDesc.

(** [ORDER BY post.created_at DESC] / [ORDER BY post.title DESC], titles
    in the database's collation. *)
Definition order_ge `{DbConfig} (k : OrderKey) (a b : Post) : bool :=
  match k with
  | CreatedAtDesc => p_created_at b <=? p_created_at a
  | TitleDesc => title_le (p_title b) (p_title a)
  end.

(** A [select(Post)] statement with its optional clauses. *)
Record SelectPosts := mkSelectPosts {
  sel_order : option OrderKey;
  sel_limit : option Z;
  sel_author : option Z
}.

(** [SELECT * FROM post WHERE author = $1 ORDER BY k DESC LIMIT $2]: the
    scan, then the filter, the sort and the limit.  The limit is an
    INTEGER parameter, and PostgreSQL refuses a negative LIMIT.  The author
    is an INTEGER parameter too; out of range it is refused, a failure the
    callers answer as they answer an empty result, which is what it selects
    in a table of int4 ids: the filter is written without that check. *)
Definition select_posts `{DbConfig} (st : SelectPosts) (s : Store) : DbError + list Post :=
  let rows := match sel_author st with
              | None => scan_posts (posts s)
              | Some a => filter (fun p => p_author p =? a) (scan_posts (posts s))
              end in
  let rows := match sel_order st with
              | None => rows
              | Some k => sort_rows (order_ge k) rows
              end in
  match sel_limit st with
  | None => inr rows
  | Some n =>
      if negb (int4 n) then inl DataError
      else if n <? 0 then inl DataError
      else inr (firstn (Z.to_nat n) rows)
  end.

(** What the connection does to the next statement. *)
Definition conn_error (c : Conn) : option Exc :=
  match c with
  | Lost :: _ => Some (SqlError OperationalError)
  | Refused :: _ => Some OSError
  | _ => None
  end.

(** [await db.execute(q)]: the query's own outcome [q] unless the
    connection fails first. *)
Definition run {A} (c : Conn) (q : DbError + A) : (Exc + A) * Conn :=
  (match conn_error c with
   | Some e => inl e
   | None => match q with inl e => inl (SqlError e) | inr a => inr a end
   end, tl c).

(** The pending change of a session, flushed at [commit].  [UpdatePost]
    carries the columns whose value the session changed. *)
Inductive Write :=
| InsertUser (name token login password : string)
| InsertPost (title : string) (author : Z) (text : string) (created_at : datetime)
| DeleteUser (id : Z)
| DeletePosts (ids : list Z)
| UpdatePost (id : Z) (title text : option string).

Definition same_name_login (name login : string) (u : User) : bool :=
  String.eqb (u_name u) name && String.eqb (u_login u) login.

Definition set_title_text (title text : option string) (p : Post) : Post :=
  mkPost (p_id p)
         (match title with Some t => t | None => p_title p end)
         (p_author p)
         (match text with Some t => t | None => p_text p end)
         (p_created_at p).

(** Executing the flushed statement.  The parameters are bound first (a
    refused value is a [DataError] and nothing runs); an INSERT then takes
    [nextval] of the serial column, which fails past [int4_max] and is
    consumed even when the row is then refused by PRIMARY KEY (id), UNIQUE
    (name, login) on users or FOREIGN KEY post.author REFERENCES users.id.
    On failure the store returned holds the sequences as the failed
    statement left them. *)
Definition flush (w : Write) (s : Store) : (DbError * Store) + Store :=
  match w with
  | InsertUser name token login password =>
      match parse_uuid token with
      | None => inl (DataError, s)
      | Some v =>
          if negb (text_ok name && text_ok login && text_ok password) then inl (DataError, s)
          else
            let id := users_id_seq s in
            if int4_max <? id then inl (DataError, s)
            else
              let s1 := mkStore (users s) (posts s) (id + 1) (post_id_seq s) in
              if existsb (fun u => u_id u =? id) (users s) ||
                 existsb (same_name_login name login) (users s)
              then inl (IntegrityError, s1)
              else inr (mkStore (users s ++ [mkUser id name (str_uuid v) login password])
                                (posts s) (id + 1) (post_id_seq s))
      end
  | InsertPost title author text created_at =>
      if negb (int4 author && text_ok title && text_ok text) then inl (DataError, s)
      else
        let id := post_id_seq s in
        if int4_max <? id then inl (DataError, s)
        else
          let s1 := mkStore (users s) (posts s) (users_id_seq s) (id + 1) in
          if existsb (fun p => p_id p =? id) (posts s) ||
             negb (existsb (fun u => u_id u =? author) (users s))
          then inl (IntegrityError, s1)
          else inr (mkStore (users s) (posts s ++ [mkPost id title author text created_at])
                            (users_id_seq s) (id + 1))
  | DeleteUser id =>
      if existsb (fun p => p_author p =? id) (posts s) then inl (IntegrityError, s)
      else inr (mkStore (filter (fun u => negb (u_id u =? id)) (users s))
                        (posts s) (users_id_seq s) (post_id_seq s))
  | DeletePosts ids =>
      inr (mkStore (users s)
                   (filter (fun p => negb (existsb (Z.eqb (p_id p)) ids)) (posts s))
                   (users_id_seq s) (post_id_seq s))
  | UpdatePost id title text =>
      match title, text with
      | None, None => inr s
      | _, _ =>
          if negb (opt_text_ok title && opt_text_ok text) then inl (DataError, s)
          else if negb (Nat.eqb (List.length (filter (fun p => p_id p =? id) (posts s))) 1)
          then inl (StaleDataError, s)
          else inr (mkStore (users s)
                            (map (fun p => if p_id p =? id then set_title_text title text p else p)
                                 (posts s))
                            (users_id_seq s) (post_id_seq s))
      end
  end.

(** [await db.commit()]. *)
Definition commit (c : Conn) (w : Write) (s : Store) : option Exc * Conn * Store :=
  match conn_error c with
  | Some e => (Some e, tl c, s)
  | None =>
      match flush w s with
      | inl (e, s1) => (Some (SqlError e), tl c, s1)
      | inr s' => (None, tl c, s')
      end
  end.

(** The outcome of a database layer method: its return value, or the
    exception that escapes its [except SQLAlchemyError] (the [OSError]). *)
Inductive Out (A : Type) : Type := Ret (a : A) | Escaped.
Arguments Ret {A} a.
Arguments Escaped {A}.

(** ** Database layer: src/base/post.py *)

Module DataBasePost.

Definition ok_result (code : Z) : Result := mkResult code "Успешно" None.
Definition err_result (code : Z) (msg : string) : Result := mkResult code "Ошибка" (Some msg).

(** [get_user]: the author's name, [None] on error or absence.  An id out
    of the int4 range is refused, and answered [None] as an id no row
    has. *)
Definition get_user `{DbConfig} (c : Conn) (s : Store) (user_id : Z) : Out (option string) * Conn :=
  let (r, c') := run c (inr (find (fun u => u_id u =? user_id) (scan_users (users s)))) in
  (match r with
   | inr (Some user) => Ret (Some (u_name user))
   | inr None => Ret None
   | inl (SqlError _) => Ret None
   | inl OSError => Escaped
   end, c').

Definition get_post `{DbConfig} (c : Conn) (s : Store) (post_id : Z) : Out (option Post) * Conn :=
  let (r, c') := run c (inr (find (fun p => p_id p =? post_id) (scan_posts (posts s)))) in
  (match r with
   | inr row => Ret row
   | inl (SqlError _) => Ret None
   | inl OSError => Escaped
   end, c').

(** The statement built from [filter_params]; a [desc] value other than
    "created_at" and "title" adds no ORDER BY. *)
Definition posts_statement (fp : FilterParams) : SelectPosts :=
  mkSelectPosts
    (match f_desc fp with
     | Some d => if String.eqb d "created_at" then Some CreatedAtDesc
                 else if String.eqb d "title" then Some TitleDesc
                 else None
     | None => None
     end)
    (f_limit fp)
    (f_author fp).

Definition get_posts `{DbConfig} (c : Conn) (s : Store) (fp : FilterParams)
  : Out (option (list Post)) * Conn :=
  let (r, c') := run c (select_posts (posts_statement fp) s) in
  (match r with
   | inr rows => Ret (Some rows)
   | inl (SqlError _) => Ret None
   | inl OSError => Escaped
   end, c').

(** [create_post]: [created_at] takes the column default, the value of
    [datetime.utcnow()] computed when model.py was imported. *)
Definition create_post (c : Conn) (env : Env) (s : Store) (post : SchemaPost)
  : Out Result * Conn * Store :=
  match commit c (InsertPost (sp_title post) (sp_author post) (sp_text post)
                             (import_time env)) s with
  | (None, c', s') => (Ret (ok_result 201), c', s')
  | (Some (SqlError IntegrityError), c', s') =>
      (Ret (err_result 404 "Указанный автор не существует"), c', s')
  | (Some (SqlError _), c', s') => (Ret (err_result 500 "Внутренняя ошибка сервера"), c', s')
  | (Some OSError, c', s') => (Escaped, c', s')
  end.

(** The value an attribute assignment leaves to flush: [None] when it
    equals the loaded one (the ORM then writes no column). *)
Definition changed (old new : string) : option string :=
  if String.eqb old new then None else Some new.

(** [update_post]: [post.title = ...] and [post.text = ...] on the loaded
    row, then [commit]. *)
Definition update_post `{DbConfig} (c : Conn) (s : Store) (post_update : SchemaPostUpdate)
  : Out Result * Conn * Store :=
  match get_post c s (spu_id post_update) with
  | (Escaped, c1) => (Escaped, c1, s)
  | (Ret None, c1) => (Ret (err_result 404 "Пост не найден"), c1, s)
  | (Ret (Some post), c1) =>
      match commit c1 (UpdatePost (p_id post) (changed (p_title post) (spu_title post_update))
                                  (changed (p_text post) (spu_text post_update))) s with
      | (None, c', s') => (Ret (ok_result 200), c', s')
      | (Some (SqlError _), c', s') => (Ret (err_result 500 "Внутренняя ошибка сервера"), c', s')
      | (Some OSError, c', s') => (Escaped, c', s')
      end
  end.

Definition delete_post `{DbConfig} (c : Conn) (s : Store) (post_id : Z)
  : Out Result * Conn * Store :=
  match get_post c s post_id with
  | (Escaped, c1) => (Escaped, c1, s)
  | (Ret None, c1) => (Ret (err_result 404 "Пост не найден"), c1, s)
  | (Ret (Some post), c1) =>
      match commit c1 (DeletePosts [p_id post]) s with
      | (None, c', s') => (Ret (ok_result 200), c', s')
      | (Some (SqlError _), c', s') => (Ret (err_result 500 "Внутренняя ошибка сервера"), c', s')
      | (Some OSError, c', s') => (Escaped, c', s')
      end
  end.

(** [delete_posts_user]: [if not posts] is taken both for an empty list
    and for the [None] of a failed query. *)
Definition delete_posts_user `{DbConfig} (c : Conn) (s : Store) (user_id : Z)
  : Out Result * Conn * Store :=
  match get_posts c s (mkFilterParams None None (Some user_id)) with
  | (Escaped, c1) => (Escaped, c1, s)
  | (Ret (None | Some []), c1) => (Ret (err_result 404 "Посты не найдены"), c1, s)
  | (Ret (Some ps), c1) =>
      match commit c1 (DeletePosts (map p_id ps)) s with
      | (None, c', s') => (Ret (ok_result 200), c', s')
      | (Some (SqlError _), c', s') => (Ret (err_result 500 "Внутренняя ошибка сервера"), c', s')
      | (Some OSError, c', s') => (Escaped, c', s')
      end
  end.

End DataBasePost.

(** ** Database layer: src/base/user.py *)

Module DataBaseUser.

Definition get_user `{DbConfig} (c : Conn) (s : Store) (user_id : Z) : Out (option User) * Conn :=
  let (r, c') := run c (inr (find (fun u => u_id u =? user_id) (scan_users (users s)))) in
  (match r with
   | inr row => Ret row
   | inl (SqlError _) => Ret None
   | inl OSError => Escaped
   end, c').

(** [select(User).where(User.token == token)]: the token is bound to the
    UUID column, so it is compared as the uuid it denotes. *)
Definition find_token `{DbConfig} (c : Conn) (s : Store) (token : string)
  : Out (option User) * Conn :=
  let q := match parse_uuid token with
           | None => inl DataError
           | Some v => inr (find (fun u => String.eqb (u_token u) (str_uuid v))
                                 (scan_users (users s)))
           end in
  let (r, c') := run c q in
  (match r with
   | inr row => Ret row
   | inl (SqlError _) => Ret None
   | inl OSError => Escaped
   end, c').

(** [select(User.token).where(login, password)], first row.  A token read
    back is a [uuid.UUID], always true, so [if not user_token] holds only
    when no row matches. *)
Definition get_verification `{DbConfig} (c : Conn) (s : Store) (v : SchemaVerification)
  : Out Result * Conn :=
  let q := if text_ok (sv_login v) && text_ok (sv_password v)
           then inr (find (fun u => String.eqb (u_login u) (sv_login v) &&
                                    String.eqb (u_password u) (sv_password v))
                          (scan_users (users s)))
           else inl DataError in
  let (r, c') := run c q in
  (match r with
   | inr (Some u) => Ret (mkResult 200 "Успешно" (Some ("token=" ++ u_token u)%string))
   | inr None =>
       Ret (mkResult 404 "Ошибка" (Some "Пользователь с указанными данными не найден"%string))
   | inl (SqlError _) =>
       Ret (mkResult 500 "Ошибка" (Some "Внутренняя ошибка сервера при аутентификации"%string))
   | inl OSError => Escaped
   end, c').

Definition create_user (c : Conn) (s : Store) (user : SchemaUser) : Out Result * Conn * Store :=
  match commit c (InsertUser (su_name user) (su_token user) (su_login user)
                             (su_password user)) s with
  | (None, c', s') => (Ret (mkResult 201 "Успешно" (Some "Пользователь успешно создан"%string)), c', s')
  | (Some (SqlError IntegrityError), c', s') =>
      (Ret (mkResult 409 "Ошибка"
              (Some "Пользователь с таким логином или токеном уже существует"%string)), c', s')
  | (Some (SqlError _), c', s') =>
      (Ret (mkResult 500 "Ошибка"
              (Some "Внутренняя ошибка сервера при создании пользователя"%string)), c', s')
  | (Some OSError, c', s') => (Escaped, c', s')
  end.

(** [delete_user]: a foreign-key violation is an [SQLAlchemyError] too. *)
Definition delete_user `{DbConfig} (c : Conn) (s : Store) (user_id : Z)
  : Out Result * Conn * Store :=
  match get_user c s user_id with
  | (Escaped, c1) => (Escaped, c1, s)
  | (Ret None, c1) => (Ret (mkResult 404 "Ошибка" (Some "Пользователь не найден"%string)), c1, s)
  | (Ret (Some user), c1) =>
      match commit c1 (DeleteUser (u_id user)) s with
      | (None, c', s') =>
          (Ret (mkResult 200 "Успешно" (Some "Пользователь успешно удален"%string)), c', s')
      | (Some (SqlError _), c', s') =>
          (Ret (mkResult 500 "Ошибка"
                  (Some "Внутренняя ошибка сервера при удалении пользователя"%string)), c', s')
      | (Some OSError, c', s') => (Escaped, c', s')
      end
  end.

End DataBaseUser.

(** ** Middle layer: src/server/post.py *)

(** The dict of a fetched post. *)
Record PostView := mkPostView {
  pv_title : string;
  pv_text : string;
  pv_author : string;
  pv_created_at : Z
}.

(** An entry of a listing. *)
Record PostSummary := mkPostSummary {
  ps_title : string;
  ps_id : Z;
  ps_created_at : Z
}.

(** [datetime.strftime(t, "%Y-%m-%d %H:%M")]: the text names the minute of
    [t] and nothing finer; it is represented by the number of that minute. *)
Definition strftime_minute (t : datetime) : Z := t / 60000000.

Inductive GetPostAnswer := PostFound (v : PostView) | PostError (msg : string).

Inductive ListAnswer := PostList (l : list PostSummary) | ListError (msg : string).

(** [except Exception]: the dict a middle layer method returns when an
    exception escapes the database layer. *)
Definition internal_error : Result := mkResult 500 "Ошибка" (Some "Внутренняя ошибка сервера"%string).

Definition catch_result (o : Out Result) : Result :=
  match o with Ret r => r | Escaped => internal_error end.

Module MiddleLoyePost.

Definition get_post `{DbConfig} (c : Conn) (s : Store) (post_id : Z) : GetPostAnswer * Conn :=
  match DataBasePost.get_post c s post_id with
  | (Escaped, c1) => (PostError "Ошибка при получении поста", c1)
  | (Ret None, c1) => (PostError "Пост не найден", c1)
  | (Ret (Some post), c1) =>
      match DataBasePost.get_user c1 s (p_author post) with
      | (Escaped, c2) => (PostError "Ошибка при получении поста", c2)
      | (Ret user_name, c2) =>
          (PostFound (mkPostView (p_title post) (p_text post)
                                 (py_or user_name "Неизвестный автор")
                                 (strftime_minute (p_created_at post))), c2)
      end
  end.

Definition valid_sort_fields : list string := ["created_at"; "title"]%string.

Definition summary (post : Post) : PostSummary :=
  mkPostSummary (p_title post) (p_id post) (strftime_minute (p_created_at post)).

Definition get_posts `{DbConfig} (c : Conn) (s : Store) (fp : FilterParams) : ListAnswer * Conn :=
  let fetch :=
    match DataBasePost.get_posts c s fp with
    | (Escaped, c1) => (ListError "Ошибка при получении постов", c1)
    | (Ret (None | Some []), c1) => (PostList [], c1)
    | (Ret (Some ps), c1) => (PostList (map summary ps), c1)
    end in
  match f_desc fp with
  | Some d =>
      if existsb (String.eqb d) valid_sort_fields then fetch
      else (ListError "Недопустимое поле для сортировки", c)
  | None => fetch
  end.

Definition new_post (c : Conn) (env : Env) (s : Store) (post : SchemaPost) : Result * Conn * Store :=
  let '(o, c', s') := DataBasePost.create_post c env s post in (catch_result o, c', s').

Definition update_post `{DbConfig} (c : Conn) (s : Store) (post_update : SchemaPostUpdate)
  : Result * Conn * Store :=
  let '(o, c', s') := DataBasePost.update_post c s post_update in (catch_result o, c', s').

Definition delete_post `{DbConfig} (c : Conn) (s : Store) (post_id : Z) : Result * Conn * Store :=
  let '(o, c', s') := DataBasePost.delete_post c s post_id in (catch_result o, c', s').

Definition delete_post_user `{DbConfig} (c : Conn) (s : Store) (user_id : Z)
  : Result * Conn * Store :=
  let '(o, c', s') := DataBasePost.delete_posts_user c s user_id in
  match o with
  | Escaped => (internal_error, c', s')
  | Ret result =>
      if status_code result =? 200
      then (mkResult 200 "" (Some "Все посты пользователя удалены"%string), c', s')
      else (result, c', s')
  end.

End MiddleLoyePost.

(** ** Middle layer: src/server/user.py *)

Inductive VerificationAnswer := VToken (t : string) | VError (msg : string).

Module MiddleLoyeUser.

(** [new_user]: [user_data.token = str(uuid4())] overwrites the token
    field of the request body before the row is written. *)
Definition new_user (c : Conn) (env : Env) (s : Store) (user_data : SchemaUser)
  : Result * Conn * Store :=
  let user_data := mkSchemaUser (su_name user_data) (str_uuid (uuid env))
                                (su_login user_data) (su_password user_data) in
  let '(o, c', s') := DataBaseUser.create_user c s user_data in (catch_result o, c', s').

Definition verification `{DbConfig} (c : Conn) (s : Store) (credentials : SchemaVerification)
  : VerificationAnswer * Conn :=
  match DataBaseUser.get_verification c s credentials with
  | (Escaped, c') => (VError "Ошибка при проверке учетных данных", c')
  | (Ret result, c') =>
      let err := VError (match description result with
                         | Some d => d
                         | None => "Ошибка аутентификации"%string
                         end) in
      if status_code result =? 200 then
        let token_str := match description result with Some d => d | None => ""%string end in
        if String.prefix "token=" token_str then
          match nth_error (split_char "=" token_str) 1 with
          | Some t => (VToken t, c')
          | None => (VError "Неизвестная ошибка при проверке учетных данных", c')
          end
        else (err, c')
      else (err, c')
  end.

Definition check_token `{DbConfig} (c : Conn) (s : Store) (token : string) : bool * Conn :=
  match DataBaseUser.find_token c s token with
  | (Ret (Some _), c') => (true, c')
  | (Ret None, c') => (false, c')
  | (Escaped, c') => (false, c')
  end.

Definition delete_user `{DbConfig} (c : Conn) (s : Store) (user_id : Z) : Result * Conn * Store :=
  let '(o, c', s') := DataBaseUser.delete_user c s user_id in (catch_result o, c', s').

End MiddleLoyeUser.

(** ** HTTP layer: src/router/post.py and src/router/user.py *)

Inductive Body :=
| BResult (r : Result)
| BPost (v : PostView)
| BPosts (l : list PostSummary)
| BToken (t : string)
| BMessage (msg : string).

(** A response: a success with its body, or a raised [HTTPException]. *)
Inductive Resp := HOk (code : Z) (b : Body) | HErr (code : Z).

Definition resp_status (r : Resp) : Z :=
  match r with HOk code _ => code | HErr code => code end.

Module Router.

(** [verify_token]: the dependency of the three post mutations; [false]
    means it raises 403 before the handler runs.  The handler then uses
    the same session. *)
Definition verify_token `{DbConfig} (c : Conn) (s : Store) (token : string) : bool :=
  fst (MiddleLoyeUser.check_token c s token).

Definition create_post `{DbConfig} (c : Conn) (env : Env) (s : Store) (token : string)
  (new_post : SchemaPost) : Resp * Store :=
  let (ok, c1) := MiddleLoyeUser.check_token c s token in
  if ok then
    let '(result, _, s') := MiddleLoyePost.new_post c1 env s new_post in
    if status_code result =? 201 then (HOk 201 (BResult result), s')
    else (HErr (status_code result), s')
  else (HErr 403, s).

Definition delete_post `{DbConfig} (c : Conn) (s : Store) (token : string) (post_id : Z)
  : Resp * Store :=
  let (ok, c1) := MiddleLoyeUser.check_token c s token in
  if ok then
    let '(result, _, s') := MiddleLoyePost.delete_post c1 s post_id in
    if status_code result =? 200 then (HOk 200 (BResult result), s')
    else (HErr (status_code result), s')
  else (HErr 403, s).

Definition update_post `{DbConfig} (c : Conn) (s : Store) (token : string) (post_id : Z)
  (update : SchemaPostUpdate) : Resp * Store :=
  let (ok, c1) := MiddleLoyeUser.check_token c s token in
  if ok then
    if negb (spu_id update =? post_id) then (HErr 400, s)
    else
      let '(result, _, s') := MiddleLoyePost.update_post c1 s update in
      if status_code result =? 200 then (HOk 200 (BResult result), s')
      else (HErr (status_code result), s')
  else (HErr 403, s).

Definition get_post `{DbConfig} (c : Conn) (s : Store) (post_id : Z) : Resp :=
  match fst (MiddleLoyePost.get_post c s post_id) with
  | PostError _ => HErr 404
  | PostFound v => HOk 200 (BPost v)
  end.

(** [get_posts]: [sort_by] is the [desc] query parameter, "created_at"
    when absent; an empty value is dropped by [if sort_by:]. *)
Definition get_posts `{DbConfig} (c : Conn) (s : Store) (sort_by : string)
  (limit author_id : option Z) : Resp :=
  let filter_params :=
    mkFilterParams (if String.eqb sort_by "" then None else Some sort_by)
                   limit author_id in
  match fst (MiddleLoyePost.get_posts c s filter_params) with
  | ListError _ => HErr 400
  | PostList l => HOk 200 (BPosts l)
  end.

Definition create_user (c : Conn) (env : Env) (s : Store) (new_user : SchemaUser)
  : Resp * Store :=
  let '(result, _, s') := MiddleLoyeUser.new_user c env s new_user in
  if status_code result =? 201 then (HOk 201 (BResult result), s')
  else (HErr (status_code result), s').

(** [delete_user]: the user's posts first (a 404 "no posts" is accepted),
    then the user, in the same session. *)
Definition delete_user `{DbConfig} (c : Conn) (s : Store) (user_id : Z) : Resp * Store :=
  let '(posts_result, c1, s1) := MiddleLoyePost.delete_post_user c s user_id in
  if negb ((status_code posts_result =? 200) || (status_code posts_result =? 404))
  then (HErr (status_code posts_result), s1)
  else
    let '(user_result, _, s2) := MiddleLoyeUser.delete_user c1 s1 user_id in
    if status_code user_result =? 200
    then (HOk 200 (BMessage "User and all their posts were deleted"), s2)
    else (HErr (status_code user_result), s2).

Definition authenticate_user `{DbConfig} (c : Conn) (s : Store) (credentials : SchemaVerification)
  : Resp :=
  match fst (MiddleLoyeUser.verification c s credentials) with
  | VToken t => HOk 200 (BToken t)
  | VError _ => HErr 401
  end.

End Router.

(** ** The whole API *)

Inductive Request :=
| ReqCreateUser (u : SchemaUser)
| ReqDeleteUser (user_id : Z)
| ReqLogin (v : SchemaVerification)
| ReqCreatePost (token : string) (p : SchemaPost)
| ReqDeletePost (token : string) (post_id : Z)
| ReqUpdatePost (token : string) (post_id : Z) (u : SchemaPostUpdate)
| ReqGetPost (post_id : Z)
| ReqGetPosts (sort_by : string) (limit author : option Z).

Definition serve `{DbConfig} (c : Conn) (env : Env) (s : Store) (req : Request) : Resp * Store :=
  match req with
  | ReqCreateUser u => Router.create_user c env s u
  | ReqDeleteUser uid => Router.delete_user c s uid
  | ReqLogin v => (Router.authenticate_user c s v, s)
  | ReqCreatePost tok p => Router.create_post c env s tok p
  | ReqDeletePost tok pid => Router.delete_post c s tok pid
  | ReqUpdatePost tok pid u => Router.update_post c s tok pid u
  | ReqGetPost pid => (Router.get_post c s pid, s)
  | ReqGetPosts sort_by limit author => (Router.get_posts c s sort_by limit author, s)
  end.

(** Stores reachable from the empty database by any sequence of requests,
    whatever happens on the connection. *)
Inductive reachable `{DbConfig} : Store -> Prop :=
| reach_init : reachable empty_store
| reach_step (c : Conn) (env : Env) (s : Store) (req : Request) :
    reachable s -> reachable (snd (serve c env s req)).

(** The three post mutations, gated by [verify_token]. *)
Inductive PostMutation :=
| MutCreate (p : SchemaPost)
| MutUpdate (post_id : Z) (u : SchemaPostUpdate)
| MutDelete (post_id : Z).

Definition post_mutation `{DbConfig} (c : Conn) (env : Env) (s : Store) (token : string)
  (m : PostMutation) : Resp * Store :=
  match m with
  | MutCreate p => serve c env s (ReqCreatePost token p)
  | MutUpdate pid u => serve c env s (ReqUpdatePost token pid u)
  | MutDelete pid => serve c env s (ReqDeletePost token pid)
  end.

(** ** Vocabulary of the claims *)

(** The posts an [author] filter selects, in table order. *)
Definition matching_posts (s : Store) (author : option Z) : list Post :=
  match author with
  | None => posts s
  | Some a => filter (fun p => p_author p =? a) (posts s)
  end.



(** The (name, login) pairs of the user table. *)
Definition name_login_pairs (s : Store) : list (string * string) :=
  map (fun u => (u_name u, u_login u)) (users s).

(** [token] denotes, as a uuid, the token of a stored user: the driver
    reads it as the uuid [v], and that user's token is [v]. *)
Definition token_stored (s : Store) (token : string) : Prop :=
  exists u v, In u (users s) /\ parse_uuid token = Some v /\ u_token u = str_uuid v.

Definition has_credentials (s : Store) (login password : string) : Prop :=
  exists u, In u (users s) /\ u_login u = login /\ u_password u = password.

(** The store without the users of id [user_id] and without their posts. *)
Definition store_without_user (s : Store) (user_id : Z) : Store :=
  mkStore (filter (fun u => negb (u_id u =? user_id)) (users s))
          (filter (fun p => negb (p_author p =? user_id)) (posts s))
          (users_id_seq s) (post_id_seq s).

(** The rows a listing may return: rows of the author filter, no id twice. *)
Definition listed_ok (s : Store) (author : option Z) (ps : list Post) : Prop :=
  (forall p, In p ps -> In p (matching_posts s author)) /\ NoDup (map p_id ps).

(** The name a fetched post shows for its author [u]. *)
Definition shown_author (u : User) : string :=
  if String.eqb (u_name u) "" then "Неизвестный автор"%string else u_name u.

(** ** Vocabulary of the store invariants *)

(** FOREIGN KEY post.author REFERENCES users.id. *)
Definition fk_ok (s : Store) : Prop :=
  forall p, In p (posts s) -> exists u, In u (users s) /\ u_id u = p_author p.

(** Primary keys are distinct and below the next value of their
    sequence. *)
Definition pk_ok (s : Store) : Prop :=
  NoDup (map u_id (users s)) /\ (forall u, In u (users s) -> u_id u < users_id_seq s) /\
  NoDup (map p_id (posts s)) /\ (forall p, In p (posts s) -> p_id p < post_id_seq s).

(** Every stored token is the text of a uuid. *)
Definition tokens_ok (s : Store) : Prop :=
  forall u, In u (users s) -> exists g, u_token u = str_uuid g.

(** No stored text holds U+0000. *)
Definition texts_ok (s : Store) : Prop :=
  (forall u, In u (users s) ->
     text_ok (u_name u) && text_ok (u_login u) && text_ok (u_password u) = true) /\
  (forall p, In p (posts s) -> text_ok (p_title p) && text_ok (p_text p) = true).

(** The sequences start at 1 and user ids are INTEGER values. *)
Definition ranges_ok (s : Store) : Prop :=
  1 <= users_id_seq s /\ 1 <= post_id_seq s /\
  (forall u, In u (users s) -> 1 <= u_id u) /\
  (forall u, In u (users s) -> u_id u <= int4_max).

Definition store_ok (s : Store) : Prop :=
  fk_ok s /\ pk_ok s /\ tokens_ok s /\ texts_ok s /\ ranges_ok s /\ NoDup (name_login_pairs s).

(** A sequence of commits. *)
Inductive commits : Store -> Store -> Prop :=
| commits_refl (s : Store) : commits s s
| commits_step (s s1 : Store) (c : Conn) (w : Write) :
    commits s s1 -> commits s (snd (commit c w s1)).

(** ** Concrete stores used by the examples *)

Definition demo_alice : User := mkUser 1 "alice" (str_uuid 7) "L" "P".
Definition demo_bob : User := mkUser 2 "" (str_uuid 8) "M" "Q".
Definition demo_post1 : Post := mkPost 1 "a" 1 "x" 0.
Definition demo_post2 : Post := mkPost 2 "b" 2 "y" 120000000.

Definition demo_store : Store :=
  mkStore [demo_alice; demo_bob] [demo_post1; demo_post2] 3 3.

(** The store after one user creation on an empty database. *)
Definition demo_created : Store :=
  snd (@serve pg_default Up (mkEnv 0 0 7) empty_store
              (ReqCreateUser (mkSchemaUser "alice" "x" "L" "P"))).

(** ... followed by a post of that user (id 1, token [str_uuid 7]). *)
Definition demo_posted : Store :=
  snd (@serve pg_default Up (mkEnv 0 0 0) demo_created
              (ReqCreatePost (str_uuid 7) (mkSchemaPost "t" "x" 1))).

(** * Properties *)

(** ** Generic list facts *)

Lemma NoDup_map_inj {A B} (f : A -> B) (l : list A) (x y : A) :
  NoDup (map f l) -> In x l -> In y l -> f x = f y -> x = y.
Proof.
  induction l as [|a l IH]; simpl; [tauto|].
  intros Hnd Hx Hy Hf. inversion Hnd as [|? ? Hnotin Hnd']; subst.
  destruct Hx as [<-|Hx], Hy as [<-|Hy]; auto.
  - exfalso. apply Hnotin. rewrite Hf. now apply in_map.
  - exfalso. apply Hnotin. rewrite <- Hf. now apply in_map.
Qed.

Lemma filter_negb_nil {A} (f : A -> bool) (l : list A) :
  filter f l = [] -> filter (fun x => negb (f x)) l = l.
Proof.
  induction l as [|a l IH]; simpl; auto.
  destruct (f a); simpl; [discriminate|]. intros H. f_equal. auto.
Qed.

Lemma find_in_some {A} (f : A -> bool) (l : list A) (x : A) :
  In x l -> f x = true -> exists y, find f l = Some y.
Proof.
  intros Hin Hfx. destruct (find f l) as [y|] eqn:E; eauto.
  exfalso. pose proof (find_none f l E x Hin). congruence.
Qed.

Lemma existsb_false_forall {A} (f : A -> bool) (l : list A) :
  existsb f l = false -> forall x, In x l -> f x = false.
Proof.
  intros H x Hx. destruct (f x) eqn:E; auto.
  assert (existsb f l = true) by (apply existsb_exists; eauto). congruence.
Qed.

Lemma existsb_forall_false {A} (f : A -> bool) (l : list A) :
  (forall x, In x l -> f x = false) -> existsb f l = false.
Proof.
  intros H. destruct (existsb f l) eqn:E; auto.
  apply existsb_exists in E as [x [Hx Hfx]]. rewrite (H x Hx) in Hfx. discriminate.
Qed.

Lemma Permutation_filter_l {A} (f : A -> bool) (l l' : list A) :
  Permutation l l' -> Permutation (filter f l) (filter f l').
Proof.
  induction 1; simpl; auto.
  - destruct (f x); auto.
  - destruct (f x), (f y); auto. apply perm_swap.
  - eapply perm_trans; eauto.
Qed.

Lemma existsb_perm {A} (f : A -> bool) (l l' : list A) :
  Permutation l l' -> existsb f l = existsb f l'.
Proof.
  intros Hp. destruct (existsb f l) eqn:E1, (existsb f l') eqn:E2; auto.
  - apply existsb_exists in E1 as [x [Hx Hf]].
    rewrite (existsb_false_forall f l' E2 x (Permutation_in x Hp Hx)) in Hf. discriminate.
  - apply existsb_exists in E2 as [x [Hx Hf]].
    rewrite (existsb_false_forall f l E1 x (Permutation_in x (Permutation_sym Hp) Hx)) in Hf.
    discriminate.
Qed.

(** The row [find] returns over a permutation, when one row only
    satisfies the predicate. *)
Lemma find_unique_row {A} (f : A -> bool) (l : list A) (x : A) :
  In x l -> f x = true -> (forall y, In y l -> f y = true -> y = x) -> find f l = Some x.
Proof.
  intros Hx Hfx Hu. destruct (find_in_some f l x Hx Hfx) as [y Hy].
  rewrite Hy. apply find_some in Hy as [Hy Hfy]. f_equal. auto.
Qed.

Lemma find_none_forall {A} (f : A -> bool) (l : list A) :
  (forall y, In y l -> f y = false) -> find f l = None.
Proof.
  intros H. destruct (find f l) as [y|] eqn:E; auto.
  apply find_some in E as [Hy Hf]. rewrite (H y Hy) in Hf. discriminate.
Qed.

Lemma NoDup_map_filter {A B} (g : A -> B) (f : A -> bool) (l : list A) :
  NoDup (map g l) -> NoDup (map g (filter f l)).
Proof.
  induction l as [|a l IH]; simpl; intros Hnd; auto.
  inversion Hnd as [|? ? Hnotin Hnd']; subst.
  destruct (f a); simpl; auto. constructor; auto.
  intros Hin. apply Hnotin. apply in_map_iff in Hin as [x [Hx Hin]].
  apply filter_In in Hin as [Hin _]. rewrite <- Hx. now apply in_map.
Qed.

Lemma NoDup_map_snoc {A B} (f : A -> B) (l : list A) (y : A) :
  NoDup (map f l) -> (forall x, In x l -> f x <> f y) -> NoDup (map f (l ++ [y])).
Proof.
  induction l as [|a l IH]; simpl; intros Hnd Hne.
  - repeat constructor. simpl. tauto.
  - inversion Hnd as [|? ? Hnotin Hnd']; subst. constructor.
    + rewrite map_app. simpl. intros Hin. apply in_app_or in Hin as [Hin|[Hin|[]]].
      * contradiction.
      * exact (Hne a (or_introl eq_refl) (eq_sym Hin)).
    + apply IH; auto.
Qed.

(** ** The uuid text round trip *)

Lemma hex_value_digit (n : Z) : hex_value (hex_digit n) = Some (n mod 16).
Proof.
  assert (Hr : 0 <= n mod 16 < 16) by (apply Z.mod_pos_bound; lia).
  unfold hex_digit.
  replace (Some (n mod 16)) with (Some (Z.of_nat (Z.to_nat (n mod 16)))) by (f_equal; lia).
  assert (Hi : (Z.to_nat (n mod 16) < 16)%nat) by lia.
  revert Hi. generalize (Z.to_nat (n mod 16)). intros i Hi.
  do 16 (destruct i as [|i]; [reflexivity|]). lia.
Qed.

Lemma hex_digit_not_dash (n : Z) : Ascii.eqb (hex_digit n) "-" = false.
Proof.
  unfold hex_digit. generalize (Z.to_nat (n mod 16)) as i. intros i.
  do 16 (destruct i as [|i]; [reflexivity|]). reflexivity.
Qed.

Lemma uuid_digits_app (a b : string) (acc : Z) (k : nat) :
  uuid_digits (a ++ b) acc k =
  match uuid_digits a acc k with
  | Some (acc', k') => uuid_digits b acc' k'
  | None => None
  end.
Proof.
  revert acc k. induction a as [|x a IH]; intros acc k; simpl; auto.
  destruct (Ascii.eqb x "-"); auto.
  destruct (hex_value x); auto.
Qed.

Lemma pow16_succ (k : nat) : 16 ^ Z.of_nat (S k) = 16 * 16 ^ Z.of_nat k.
Proof. rewrite Nat2Z.inj_succ, Z.pow_succ_r by lia. ring. Qed.

Lemma mod_succ_digit (n : Z) (k : nat) :
  n mod 16 ^ Z.of_nat (S k) = n mod 16 + 16 * ((n / 16) mod 16 ^ Z.of_nat k).
Proof.
  assert (Hp : 0 < 16 ^ Z.of_nat k) by (apply Z.pow_pos_nonneg; lia).
  rewrite pow16_succ. apply Z.rem_mul_r; lia.
Qed.

Lemma uuid_digits_hex_pad (k : nat) (n acc : Z) (j : nat) :
  uuid_digits (hex_pad k n) acc j = Some (acc * 16 ^ Z.of_nat k + n mod 16 ^ Z.of_nat k, (j + k)%nat).
Proof.
  revert n acc j. induction k as [|k IH]; intros n acc j.
  - simpl. rewrite Z.mod_1_r. f_equal. f_equal; [ring|lia].
  - rewrite mod_succ_digit, pow16_succ.
    simpl hex_pad. rewrite uuid_digits_app, IH. simpl uuid_digits.
    rewrite hex_digit_not_dash, hex_value_digit.
    f_equal. f_equal; [ring|lia].
Qed.

Lemma string_length_app (a b : string) :
  String.length (a ++ b) = (String.length a + String.length b)%nat.
Proof. induction a as [|x a IH]; simpl; auto. Qed.

Lemma hex_pad_length (k : nat) (n : Z) : String.length (hex_pad k n) = k.
Proof.
  revert n. induction k as [|k IH]; intros n; simpl; auto.
  rewrite string_length_app, IH. simpl. lia.
Qed.

Lemma div_pow2_mod (g : Z) (a b : Z) : 0 <= a -> 0 <= b ->
  (g mod 2 ^ (a + b)) / 2 ^ a = (g / 2 ^ a) mod 2 ^ b.
Proof.
  intros Ha Hb.
  assert (Pa : 0 < 2 ^ a) by (apply Z.pow_pos_nonneg; lia).
  assert (Pb : 0 < 2 ^ b) by (apply Z.pow_pos_nonneg; lia).
  rewrite Z.pow_add_r by lia.
  rewrite Z.rem_mul_r by lia.
  rewrite (Z.mul_comm (2 ^ a)), Z.div_add by lia.
  rewrite (Z.div_small (g mod 2 ^ a)) by (apply Z.mod_pos_bound; lia). ring.
Qed.
Lemma split_mod2 (g a b c : Z) : 0 <= a -> 0 <= b -> c = a + b ->
  g mod 2 ^ c = g mod 2 ^ a + 2 ^ a * ((g / 2 ^ a) mod 2 ^ b).
Proof.
  intros Ha Hb ->. rewrite Z.pow_add_r by lia.
  assert (0 < 2 ^ a) by (apply Z.pow_pos_nonneg; lia).
  assert (0 < 2 ^ b) by (apply Z.pow_pos_nonneg; lia).
  apply Z.rem_mul_r; lia.
Qed.

Lemma div_pow2_div2 (g a b c : Z) : 0 <= a -> 0 <= b -> c = a + b ->
  g / 2 ^ a / 2 ^ b = g / 2 ^ c.
Proof.
  intros Ha Hb ->. rewrite Z.pow_add_r by lia.
  assert (0 < 2 ^ a) by (apply Z.pow_pos_nonneg; lia).
  assert (0 < 2 ^ b) by (apply Z.pow_pos_nonneg; lia).
  apply Z.div_div; lia.
Qed.
Lemma uuid_digits_dash (t : string) (acc : Z) (k : nat) :
  uuid_digits ("-" ++ t) acc k = uuid_digits t acc k.
Proof. reflexivity. Qed.
Lemma parse_str_uuid (g : Z) : parse_uuid (str_uuid g) = Some (g mod 2 ^ 128).
Proof.
  unfold parse_uuid.
  assert (Hlen : String.length (str_uuid g) = 36%nat).
  { unfold str_uuid. rewrite !string_length_app, !hex_pad_length. reflexivity. }
  rewrite Hlen. cbv [Nat.leb andb].
  unfold str_uuid.
  repeat (first [rewrite uuid_digits_dash | rewrite uuid_digits_hex_pad | rewrite uuid_digits_app]; cbv beta iota).
  change (0 + 8 + 4 + 4 + 4 + 12)%nat with 32%nat. cbv beta iota. f_equal.
  rewrite !Z.shiftr_div_pow2 by lia.
  rewrite (split_mod2 g 48 80 128), (split_mod2 (g / 2 ^ 48) 16 64 80),
    (div_pow2_div2 g 48 16 64), (split_mod2 (g / 2 ^ 64) 16 48 64),
    (div_pow2_div2 g 64 16 80), (split_mod2 (g / 2 ^ 80) 16 32 48),
    (div_pow2_div2 g 80 16 96) by lia.
  change (16 ^ Z.of_nat 8) with (2 ^ 32). change (16 ^ Z.of_nat 4) with (2 ^ 16).
  change (16 ^ Z.of_nat 12) with (2 ^ 48). ring.
Qed.

Lemma hex_pad_mod (k : nat) (n m : Z) :
  n mod 16 ^ Z.of_nat k = m mod 16 ^ Z.of_nat k -> hex_pad k n = hex_pad k m.
Proof.
  revert n m. induction k as [|k IH]; intros n m H; simpl hex_pad; auto.
  rewrite !mod_succ_digit in H.
  assert (Hn : 0 <= n mod 16 < 16) by (apply Z.mod_pos_bound; lia).
  assert (Hm : 0 <= m mod 16 < 16) by (apply Z.mod_pos_bound; lia).
  assert (Hd : n mod 16 = m mod 16) by lia.
  rewrite (IH (n / 16) (m / 16)) by lia.
  unfold hex_digit. now rewrite Hd.
Qed.

Lemma mod_pow2_block (g s w : Z) : 0 <= s -> 0 <= w -> s + w <= 128 ->
  ((g mod 2 ^ 128) / 2 ^ s) mod 2 ^ w = (g / 2 ^ s) mod 2 ^ w.
Proof.
  intros Hs Hw Hsw.
  rewrite (split_mod2 g s (128 - s) 128) by lia.
  assert (Pa : 0 < 2 ^ s) by (apply Z.pow_pos_nonneg; lia).
  rewrite (Z.mul_comm (2 ^ s)), Z.div_add by lia.
  rewrite (Z.div_small (g mod 2 ^ s)) by (apply Z.mod_pos_bound; lia).
  rewrite Z.add_0_l. apply Z.mod_mod_divide.
  exists (2 ^ (128 - s - w)). rewrite <- Z.pow_add_r by lia. f_equal. lia.
Qed.

Lemma str_uuid_mod (g : Z) : str_uuid (g mod 2 ^ 128) = str_uuid g.
Proof.
  unfold str_uuid. rewrite !Z.shiftr_div_pow2 by lia.
  rewrite (hex_pad_mod 8 ((g mod 2 ^ 128) / 2 ^ 96) (g / 2 ^ 96))
    by (change (16 ^ Z.of_nat 8) with (2 ^ 32); apply mod_pow2_block; lia).
  rewrite (hex_pad_mod 4 ((g mod 2 ^ 128) / 2 ^ 80) (g / 2 ^ 80))
    by (change (16 ^ Z.of_nat 4) with (2 ^ 16); apply mod_pow2_block; lia).
  rewrite (hex_pad_mod 4 ((g mod 2 ^ 128) / 2 ^ 64) (g / 2 ^ 64))
    by (change (16 ^ Z.of_nat 4) with (2 ^ 16); apply mod_pow2_block; lia).
  rewrite (hex_pad_mod 4 ((g mod 2 ^ 128) / 2 ^ 48) (g / 2 ^ 48))
    by (change (16 ^ Z.of_nat 4) with (2 ^ 16); apply mod_pow2_block; lia).
  rewrite (hex_pad_mod 12 (g mod 2 ^ 128) g); [reflexivity|].
  change (16 ^ Z.of_nat 12) with (2 ^ 48). apply Z.mod_mod_divide.
  exists (2 ^ 80). reflexivity.
Qed.

(** The text of a uuid is read back as the same uuid. *)
Lemma parse_str_uuid_canon (g : Z) :
  exists v, parse_uuid (str_uuid g) = Some v /\ str_uuid v = str_uuid g.
Proof. exists (g mod 2 ^ 128). split; [apply parse_str_uuid | apply str_uuid_mod]. Qed.

(** ** Text facts *)

Lemma has_char_app (c : ascii) (s t : string) :
  has_char c (s ++ t) = has_char c s || has_char c t.
Proof.
  induction s as [|a s IH]; simpl; auto. rewrite IH. apply orb_assoc.
Qed.

Lemma hex_digit_not_eq (n : Z) : Ascii.eqb (hex_digit n) "=" = false.
Proof.
  unfold hex_digit. generalize (Z.to_nat (n mod 16)) as i. intros i.
  do 16 (destruct i as [|i]; [reflexivity|]). reflexivity.
Qed.

Lemma hex_pad_no_eq (k : nat) (n : Z) : has_char "=" (hex_pad k n) = false.
Proof.
  revert n. induction k as [|k IH]; intros n; simpl; auto.
  rewrite has_char_app, IH. simpl. now rewrite hex_digit_not_eq.
Qed.

Lemma str_uuid_no_eq (u : Z) : has_char "=" (str_uuid u) = false.
Proof.
  unfold str_uuid. repeat rewrite has_char_app. repeat rewrite hex_pad_no_eq.
  reflexivity.
Qed.

Lemma str_uuid_nonempty (u : Z) : String.eqb (str_uuid u) "" = false.
Proof.
  unfold str_uuid. simpl.
  destruct (hex_pad 7 (Z.shiftr u 96 / 16)); reflexivity.
Qed.

Lemma split_char_none (c : ascii) (t : string) :
  has_char c t = false -> split_char c t = [t].
Proof.
  induction t as [|a t IH]; simpl; auto.
  intros H. apply orb_false_iff in H as [Ha Ht]. rewrite Ha, IH; auto.
Qed.

Lemma split_token_prefix (t : string) :
  split_char "=" ("token=" ++ t) = "token"%string :: split_char "=" t.
Proof. reflexivity. Qed.

Lemma text_ok_true (t : string) : text_ok t = true -> has_char "000"%char t = false.
Proof. unfold text_ok. now destruct (has_char _ t). Qed.

(** ** The layers with the database reachable *)

Section Layers.

Context `{DbConfig}.

Lemma tl_up : tl Up = Up.
Proof. reflexivity. Qed.

Lemma check_token_stored (s : Store) (token : string) :
  token_stored s token -> MiddleLoyeUser.check_token Up s token = (true, Up).
Proof.
  intros [u [v [Hin [Hp Htok]]]].
  unfold MiddleLoyeUser.check_token, DataBaseUser.find_token. rewrite Hp.
  destruct (find_in_some (fun u => String.eqb (u_token u) (str_uuid v)) (scan_users (users s)) u)
    as [w Hw].
  - eapply Permutation_in; [apply Permutation_sym, scan_users_perm|exact Hin].
  - simpl. now apply String.eqb_eq.
  - simpl. now rewrite Hw.
Qed.

Lemma check_token_unstored (c : Conn) (s : Store) (token : string) :
  ~ token_stored s token -> fst (MiddleLoyeUser.check_token c s token) = false.
Proof.
  intros Hns. unfold MiddleLoyeUser.check_token, DataBaseUser.find_token, run.
  destruct (conn_error c) as [[e|]|]; simpl; auto.
  destruct (parse_uuid token) as [v|] eqn:Hp; simpl; auto.
  destruct (find _ _) as [u|] eqn:E; simpl; auto.
  exfalso. apply find_some in E as [Hin Heq]. apply Hns.
  exists u, v. split; [|split; [exact Hp|now apply String.eqb_eq]].
  eapply Permutation_in; [apply scan_users_perm|exact Hin].
Qed.

End Layers.

(** ** The integrity constraints hold in every reachable store *)

Lemma commits_trans (s s1 s2 : Store) : commits s s1 -> commits s1 s2 -> commits s s2.
Proof.
  intros H1 H2. induction H2 as [|s1' s2' c w H IH]; auto.
  apply commits_step; auto.
Qed.

Lemma commits_of_commit (c : Conn) (w : Write) (s : Store) (o : option Exc) (c' : Conn) (s' : Store) :
  commit c w s = (o, c', s') -> commits s s'.
Proof.
  intros E. pose proof (commits_step s s c w (commits_refl s)) as H. now rewrite E in H.
Qed.

(** Closes [E : F ... = (o, c', s') |- commits s s'] for a database layer
    method [F] whose body has been unfolded in [E]. *)
Ltac db_commits E :=
  repeat match type of E with
  | context [match commit ?c ?w ?s with _ => _ end] =>
      let Ec := fresh "Ec" in
      destruct (commit c w s) as [[? ?] ?] eqn:Ec; apply commits_of_commit in Ec
  | context [match ?x with _ => _ end] => destruct x
  end;
  injection E; intros; subst; first [assumption | apply commits_refl].

Section Commits.

Context `{DbConfig}.

Lemma db_create_post_commits (c : Conn) (env : Env) (s : Store) (p : SchemaPost) o c' s' :
  DataBasePost.create_post c env s p = (o, c', s') -> commits s s'.
Proof. intros E. unfold DataBasePost.create_post in E. db_commits E. Qed.

Lemma db_update_post_commits (c : Conn) (s : Store) (u : SchemaPostUpdate) o c' s' :
  DataBasePost.update_post c s u = (o, c', s') -> commits s s'.
Proof. intros E. unfold DataBasePost.update_post in E. db_commits E. Qed.

Lemma db_delete_post_commits (c : Conn) (s : Store) (i : Z) o c' s' :
  DataBasePost.delete_post c s i = (o, c', s') -> commits s s'.
Proof. intros E. unfold DataBasePost.delete_post in E. db_commits E. Qed.

Lemma db_delete_posts_user_commits (c : Conn) (s : Store) (i : Z) o c' s' :
  DataBasePost.delete_posts_user c s i = (o, c', s') -> commits s s'.
Proof. intros E. unfold DataBasePost.delete_posts_user in E. db_commits E. Qed.

Lemma db_create_user_commits (c : Conn) (s : Store) (u : SchemaUser) o c' s' :
  DataBaseUser.create_user c s u = (o, c', s') -> commits s s'.
Proof. intros E. unfold DataBaseUser.create_user in E. db_commits E. Qed.

Lemma db_delete_user_commits (c : Conn) (s : Store) (i : Z) o c' s' :
  DataBaseUser.delete_user c s i = (o, c', s') -> commits s s'.
Proof. intros E. unfold DataBaseUser.delete_user in E. db_commits E. Qed.

Lemma serve_commits (c : Conn) (env : Env) (s : Store) (req : Request) :
  commits s (snd (serve c env s req)).
Proof.
  destruct req; simpl; try apply commits_refl.
  - unfold Router.create_user, MiddleLoyeUser.new_user.
    destruct (DataBaseUser.create_user c s _) as [[o c'] s'] eqn:E.
    apply db_create_user_commits in E. simpl.
    destruct (_ =? 201); exact E.
  - unfold Router.delete_user, MiddleLoyePost.delete_post_user, MiddleLoyeUser.delete_user.
    destruct (DataBasePost.delete_posts_user c s user_id) as [[o c1] s1] eqn:E1.
    apply db_delete_posts_user_commits in E1.
    destruct o as [r|]; cbv beta iota zeta;
      [destruct (status_code r =? 200); cbv beta iota zeta|];
      try (destruct (negb _); simpl; [exact E1|]);
      destruct (DataBaseUser.delete_user c1 s1 user_id) as [[o2 c2] s2] eqn:E2;
      apply db_delete_user_commits in E2; simpl;
      destruct (_ =? 200); exact (commits_trans _ _ _ E1 E2).
  - unfold Router.create_post, MiddleLoyePost.new_post.
    destruct (MiddleLoyeUser.check_token c s token) as [[|] c1]; [|apply commits_refl].
    destruct (DataBasePost.create_post c1 env s p) as [[o c'] s'] eqn:E.
    apply db_create_post_commits in E. simpl. destruct (_ =? 201); exact E.
  - unfold Router.delete_post, MiddleLoyePost.delete_post.
    destruct (MiddleLoyeUser.check_token c s token) as [[|] c1]; [|apply commits_refl].
    destruct (DataBasePost.delete_post c1 s post_id) as [[o c'] s'] eqn:E.
    apply db_delete_post_commits in E. simpl. destruct (_ =? 200); exact E.
  - unfold Router.update_post, MiddleLoyePost.update_post.
    destruct (MiddleLoyeUser.check_token c s token) as [[|] c1]; [|apply commits_refl].
    destruct (negb (spu_id u =? post_id)); [apply commits_refl|].
    destruct (DataBasePost.update_post c1 s u) as [[o c'] s'] eqn:E.
    apply db_update_post_commits in E. simpl. destruct (_ =? 200); exact E.
Qed.

Lemma reachable_commits (s : Store) : reachable s -> commits empty_store s.
Proof.
  induction 1 as [|c env s req Hr IH]; [constructor|].
  exact (commits_trans _ _ _ IH (serve_commits c env s req)).
Qed.

End Commits.

Lemma commits_preserve (P : Store -> Prop) :
  (forall c w s, P s -> P (snd (commit c w s))) ->
  forall s s', commits s s' -> P s -> P s'.
Proof.
  intros Hp s s' H. induction H as [|s s1 c w H IH]; auto.
Qed.

Lemma flush_fail_store (w : Write) (s s1 : Store) (e : DbError) :
  flush w s = inl (e, s1) ->
  s1 = s \/ s1 = mkStore (users s) (posts s) (users_id_seq s + 1) (post_id_seq s) \/
  s1 = mkStore (users s) (posts s) (users_id_seq s) (post_id_seq s + 1).
Proof.
  destruct w; simpl.
  - destruct (parse_uuid token); [|(intros H; first [discriminate H | injection H as _ <-; auto])].
    destruct (negb _); [(intros H; first [discriminate H | injection H as _ <-; auto])|].
    destruct (int4_max <? users_id_seq s); [(intros H; first [discriminate H | injection H as _ <-; auto])|].
    destruct (_ || _); (intros H; first [discriminate H | injection H as _ <-; auto]).
  - destruct (negb _); [(intros H; first [discriminate H | injection H as _ <-; auto])|].
    destruct (int4_max <? post_id_seq s); [(intros H; first [discriminate H | injection H as _ <-; auto])|].
    destruct (_ || _); (intros H; first [discriminate H | injection H as _ <-; auto]).
  - destruct (existsb _ _); (intros H; first [discriminate H | injection H as _ <-; auto]).
  - discriminate.
  - destruct title, text; try discriminate;
      (destruct (negb _); [(intros H; first [discriminate H | injection H as _ <-; auto])|]);
      destruct (negb _); (intros H; first [discriminate H | injection H as _ <-; auto]).
Qed.

Lemma map_p_id_update (id : Z) (title text : option string) (ps : list Post) :
  map p_id (map (fun p => if p_id p =? id then set_title_text title text p else p) ps) =
  map p_id ps.
Proof.
  rewrite map_map. apply map_ext. intros p. now destruct (p_id p =? id).
Qed.

Lemma in_update_posts (id : Z) (title text : option string) (ps : list Post) (q : Post) :
  In q (map (fun p => if p_id p =? id then set_title_text title text p else p) ps) ->
  exists p, In p ps /\ p_id q = p_id p /\ p_author q = p_author p /\
    (q = p \/ q = set_title_text title text p).
Proof.
  intros Hq. apply in_map_iff in Hq as [p [<- Hp]].
  exists p. destruct (p_id p =? id); auto.
Qed.

Lemma same_name_login_pair (u v : User) :
  same_name_login (u_name v) (u_login v) u = false ->
  (u_name u, u_login u) <> (u_name v, u_login v).
Proof.
  unfold same_name_login. intros H Heq. injection Heq as E1 E2.
  rewrite E1, E2, !String.eqb_refl in H. discriminate.
Qed.

Lemma commit_store_ok (c : Conn) (w : Write) (s : Store) :
  store_ok s -> store_ok (snd (commit c w s)).
Proof.
  intros Hs. unfold commit. destruct (conn_error c); [exact Hs|].
  destruct Hs as [Hfk [[Hu [Hus [Hp Hps]]] [Htok [[Htu Htp] [[Hsu [Hsp [Hid1 Hid2]]] Hnl]]]]].
  destruct (flush w s) as [[e s1]|s'] eqn:E; simpl.
  - apply flush_fail_store in E as [-> | [-> | ->]].
    + repeat split; auto.
    + repeat split; simpl; auto; try lia.
      intros u Hin. specialize (Hus u Hin). lia.
    + repeat split; simpl; auto; try lia.
      intros p Hin. specialize (Hps p Hin). lia.
  - destruct w; simpl in E.
    + destruct (parse_uuid token) as [v|]; [|discriminate].
      destruct (text_ok name && text_ok login && text_ok password) eqn:Et; simpl in E;
        [|discriminate].
      destruct (int4_max <? users_id_seq s) eqn:Emax; [discriminate|].
      apply Z.ltb_ge in Emax.
      destruct (existsb (fun u => u_id u =? users_id_seq s) (users s)) eqn:Ex1; [discriminate|].
      destruct (existsb (same_name_login name login) (users s)) eqn:Ex2; [discriminate|].
      injection E as <-.
      repeat split; simpl.
      * intros p Hp'. destruct (Hfk p Hp') as [u [Hin Hid']].
        exists u. split; auto. apply in_or_app. now left.
      * apply NoDup_map_snoc; auto. intros x Hx. simpl.
        pose proof (existsb_false_forall _ _ Ex1 x Hx) as Hne. simpl in Hne.
        now apply Z.eqb_neq.
      * intros u Hin. apply in_app_or in Hin as [Hin|[<-|[]]];
          [specialize (Hus u Hin)|simpl]; lia.
      * exact Hp.
      * exact Hps.
      * intros u Hin. apply in_app_or in Hin as [Hin|[<-|[]]]; eauto.
        exists v. reflexivity.
      * intros u Hin. apply in_app_or in Hin as [Hin|[<-|[]]]; [apply Htu; auto|exact Et].
      * exact Htp.
      * lia.
      * exact Hsp.
      * intros u Hin. apply in_app_or in Hin as [Hin|[<-|[]]]; [apply Hid1; auto|simpl; lia].
      * intros u Hin. apply in_app_or in Hin as [Hin|[<-|[]]]; [apply Hid2; auto|simpl; lia].
      * unfold name_login_pairs. simpl. apply NoDup_map_snoc; auto.
        intros x Hx. apply same_name_login_pair. simpl.
        exact (existsb_false_forall _ _ Ex2 x Hx).
    + destruct (int4 author && text_ok title && text_ok text) eqn:Et; simpl in E;
        [|discriminate].
      apply andb_true_iff in Et as [Et Etx]. apply andb_true_iff in Et as [_ Ett].
      destruct (int4_max <? post_id_seq s) eqn:Emax; [discriminate|].
      destruct (existsb (fun p => p_id p =? post_id_seq s) (posts s)) eqn:Ex1; [discriminate|].
      destruct (existsb (fun u => u_id u =? author) (users s)) eqn:Ex2; [|discriminate].
      injection E as <-. repeat split; simpl; auto.
      * intros p Hin. apply in_app_or in Hin as [Hin|[<-|[]]]; auto.
        apply existsb_exists in Ex2 as [u [Hu' Heq]]. apply Z.eqb_eq in Heq. eauto.
      * apply NoDup_map_snoc; auto. intros x Hx. simpl.
        pose proof (existsb_false_forall _ _ Ex1 x Hx) as Hne. simpl in Hne.
        now apply Z.eqb_neq.
      * intros p Hin. apply in_app_or in Hin as [Hin|[<-|[]]];
          [specialize (Hps p Hin)|simpl]; lia.
      * intros p Hin. apply in_app_or in Hin as [Hin|[<-|[]]]; [apply Htp; auto|].
        simpl. now rewrite Ett, Etx.
      * lia.
    + destruct (existsb _ (posts s)) eqn:Ex; [discriminate|].
      injection E as <-. repeat split; simpl; auto.
      * intros p Hin. destruct (Hfk p Hin) as [u [Hin' Hid']].
        exists u. split; auto. apply filter_In. split; auto.
        pose proof (existsb_false_forall _ _ Ex p Hin) as Hne. simpl in Hne.
        rewrite Hid', Hne. reflexivity.
      * now apply NoDup_map_filter.
      * intros u Hin. apply filter_In in Hin as [Hin _]. auto.
      * intros u Hin. apply filter_In in Hin as [Hin _]. auto.
      * intros u Hin. apply filter_In in Hin as [Hin _]. apply Htu; auto.
      * intros u Hin. apply filter_In in Hin as [Hin _]. apply Hid1; auto.
      * intros u Hin. apply filter_In in Hin as [Hin _]. apply Hid2; auto.
      * unfold name_login_pairs. simpl. now apply NoDup_map_filter.
    + injection E as <-. repeat split; simpl; auto.
      * intros p Hin. apply filter_In in Hin as [Hin _]. auto.
      * now apply NoDup_map_filter.
      * intros p Hin. apply filter_In in Hin as [Hin _]. auto.
      * intros p Hin. apply filter_In in Hin as [Hin _]. apply Htp; auto.
    + assert (Hupd : opt_text_ok title && opt_text_ok text = true ->
                 store_ok (mkStore (users s)
                        (map (fun p => if p_id p =? id then set_title_text title text p else p)
                             (posts s)) (users_id_seq s) (post_id_seq s))).
      { intros Hok. apply andb_true_iff in Hok as [Hot Hox].
        repeat split; simpl; auto.
        - intros q Hq. apply in_update_posts in Hq as [p [Hin [_ [-> _]]]]. auto.
        - now rewrite map_p_id_update.
        - intros q Hq. apply in_update_posts in Hq as [p [Hin [-> _]]]. auto.
        - intros q Hq. apply in_update_posts in Hq as [p [Hin [_ [_ [-> | ->]]]]];
            [apply Htp; auto|].
          specialize (Htp p Hin). apply andb_true_iff in Htp as [Ht1 Ht2].
          destruct title, text; simpl in *; rewrite ?Hot, ?Hox, ?Ht1, ?Ht2; reflexivity. }
      destruct title as [t|], text as [x|];
        try (injection E as <-; repeat split; auto; fail);
        (destruct (opt_text_ok _ && opt_text_ok _) eqn:Eok; simpl in E; [|discriminate]);
        (destruct (negb _); [discriminate|]);
        injection E as <-; apply Hupd; first [reflexivity | exact Eok].
Qed.

Lemma empty_store_ok : store_ok empty_store.
Proof.
  repeat split; simpl; try constructor; try lia; intros ? [].
Qed.

Section Invariants.

Context `{DbConfig}.

Lemma reachable_store_ok (s : Store) : reachable s -> store_ok s.
Proof.
  intros Hr. apply (commits_preserve store_ok commit_store_ok empty_store s).
  - now apply reachable_commits.
  - exact empty_store_ok.
Qed.

End Invariants.

Lemma delete_selected_posts (sel : Post -> bool) (ps : list Post) :
  NoDup (map p_id ps) ->
  filter (fun p => negb (existsb (Z.eqb (p_id p)) (map p_id (filter sel ps)))) ps =
  filter (fun p => negb (sel p)) ps.
Proof.
  intros Hnd. apply filter_ext_in. intros p Hp. f_equal.
  destruct (sel p) eqn:Hs.
  - apply existsb_exists. exists (p_id p). split.
    + apply in_map. now apply filter_In.
    + apply Z.eqb_refl.
  - destruct (existsb (Z.eqb (p_id p)) (map p_id (filter sel ps))) eqn:E; auto.
    apply existsb_exists in E as [i [Hi Heq]].
    apply in_map_iff in Hi as [q [<- Hq]]. apply filter_In in Hq as [Hq Hsq].
    apply Z.eqb_eq in Heq.
    assert (p = q) by (apply (NoDup_map_inj p_id ps); auto). subst. congruence.
Qed.

Lemma filter_nil_existsb {A} (f : A -> bool) (l : list A) :
  filter f l = [] -> existsb f l = false.
Proof.
  intros Hf. apply existsb_forall_false. intros x Hx.
  destruct (f x) eqn:E; auto.
  assert (In x (filter f l)) by (now apply filter_In). rewrite Hf in H. destruct H.
Qed.

Section UpLayers.

Context `{DbConfig}.

Lemma commit_up (w : Write) (s : Store) :
  commit Up w s =
  match flush w s with
  | inl (e, s1) => (Some (SqlError e), Up, s1)
  | inr s' => (None, Up, s')
  end.
Proof. unfold commit. simpl. now destruct (flush w s) as [[? ?]|?]. Qed.

Lemma scan_users_in (l : list User) (u : User) : In u l <-> In u (scan_users l).
Proof.
  split; intros Hin.
  - exact (Permutation_in _ (Permutation_sym (scan_users_perm l)) Hin).
  - exact (Permutation_in _ (scan_users_perm l) Hin).
Qed.

Lemma scan_posts_in (l : list Post) (p : Post) : In p l <-> In p (scan_posts l).
Proof.
  split; intros Hin.
  - exact (Permutation_in _ (Permutation_sym (scan_posts_perm l)) Hin).
  - exact (Permutation_in _ (scan_posts_perm l) Hin).
Qed.

End UpLayers.

Section UpQueries.

Context `{DbConfig}.

Lemma db_post_get_user_up (s : Store) (uid : Z) :
  DataBasePost.get_user Up s uid =
  (Ret (option_map u_name (find (fun u => u_id u =? uid) (scan_users (users s)))), Up).
Proof. unfold DataBasePost.get_user. now destruct (find _ _). Qed.

Lemma db_get_post_up (s : Store) (pid : Z) :
  DataBasePost.get_post Up s pid =
  (Ret (find (fun p => p_id p =? pid) (scan_posts (posts s))), Up).
Proof. reflexivity. Qed.

Lemma db_get_posts_up (s : Store) (fp : FilterParams) :
  DataBasePost.get_posts Up s fp =
  (match select_posts (DataBasePost.posts_statement fp) s with
   | inl _ => Ret None
   | inr rows => Ret (Some rows)
   end, Up).
Proof. unfold DataBasePost.get_posts. now destruct (select_posts _ _). Qed.

Lemma db_user_get_user_up (s : Store) (uid : Z) :
  DataBaseUser.get_user Up s uid =
  (Ret (find (fun u => u_id u =? uid) (scan_users (users s))), Up).
Proof. reflexivity. Qed.

Lemma db_find_token_up (s : Store) (token : string) :
  DataBaseUser.find_token Up s token =
  (Ret (match parse_uuid token with
        | None => None
        | Some v => find (fun u => String.eqb (u_token u) (str_uuid v)) (scan_users (users s))
        end), Up).
Proof. unfold DataBaseUser.find_token. now destruct (parse_uuid token). Qed.

End UpQueries.

Section Outcomes.

Context `{DbConfig}.

Lemma commit_none_flush (c : Conn) (w : Write) (s : Store) (c' : Conn) (s' : Store) :
  commit c w s = (None, c', s') -> flush w s = inr s'.
Proof.
  unfold commit. destruct (conn_error c); [discriminate|].
  destruct (flush w s) as [[e s1]|s1]; [discriminate|].
  intros Hc. injection Hc as Hs. now subst.
Qed.

Lemma flush_insert_post_ok (title : string) (author : Z) (text : string) (t : datetime)
  (s s' : Store) :
  flush (InsertPost title author text t) s = inr s' ->
  existsb (fun p => p_id p =? post_id_seq s) (posts s) = false /\
  existsb (fun u => u_id u =? author) (users s) = true /\
  s' = mkStore (users s) (posts s ++ [mkPost (post_id_seq s) title author text t])
               (users_id_seq s) (post_id_seq s + 1).
Proof.
  simpl. destruct (negb _); [discriminate|].
  destruct (int4_max <? post_id_seq s); [discriminate|].
  destruct (existsb (fun p => p_id p =? post_id_seq s) (posts s)); [discriminate|].
  destruct (existsb (fun u => u_id u =? author) (users s)); [|discriminate].
  simpl. intros E. injection E as <-. auto.
Qed.

Lemma flush_insert_user_ok (name token login password : string) (s s' : Store) :
  flush (InsertUser name token login password) s = inr s' ->
  exists v, parse_uuid token = Some v /\
    text_ok name && text_ok login && text_ok password = true /\
    existsb (fun u => u_id u =? users_id_seq s) (users s) = false /\
    existsb (same_name_login name login) (users s) = false /\
    s' = mkStore (users s ++ [mkUser (users_id_seq s) name (str_uuid v) login password])
                 (posts s) (users_id_seq s + 1) (post_id_seq s).
Proof.
  simpl. destruct (parse_uuid token) as [v|]; [|discriminate].
  destruct (text_ok name && text_ok login && text_ok password) eqn:Et; [|discriminate].
  simpl. destruct (int4_max <? users_id_seq s); [discriminate|].
  destruct (existsb (fun u => u_id u =? users_id_seq s) (users s)); [discriminate|].
  destruct (existsb (same_name_login name login) (users s)); [discriminate|].
  simpl. intros E. injection E as <-. exists v. auto.
Qed.

Lemma router_create_post_ok (c : Conn) (env : Env) (s s' : Store) (token : string)
  (sp : SchemaPost) (body : Body) :
  Router.create_post c env s token sp = (HOk 201 body, s') ->
  fst (MiddleLoyeUser.check_token c s token) = true /\
  flush (InsertPost (sp_title sp) (sp_author sp) (sp_text sp) (import_time env)) s = inr s'.
Proof.
  unfold Router.create_post, MiddleLoyePost.new_post, DataBasePost.create_post.
  destruct (MiddleLoyeUser.check_token c s token) as [[|] c1]; [|discriminate].
  destruct (commit c1 _ s) as [[o c2] s2] eqn:E.
  destruct o as [[[]|]|]; simpl; intros Hr; try discriminate.
  injection Hr as _ <-. split; [reflexivity|]. exact (commit_none_flush _ _ _ _ _ E).
Qed.

Lemma router_create_user_ok (c : Conn) (env : Env) (s s' : Store) (nu : SchemaUser)
  (body : Body) :
  Router.create_user c env s nu = (HOk 201 body, s') ->
  flush (InsertUser (su_name nu) (str_uuid (uuid env)) (su_login nu) (su_password nu)) s =
  inr s'.
Proof.
  unfold Router.create_user, MiddleLoyeUser.new_user, DataBaseUser.create_user.
  cbn [su_name su_token su_login su_password].
  generalize (str_uuid (uuid env)) as tok. intros tok.
  destruct (commit c _ s) as [[o c2] s2] eqn:E.
  destruct o as [[[]|]|]; simpl; intros Hr; try discriminate.
  injection Hr as _ <-. exact (commit_none_flush _ _ _ _ _ E).
Qed.

Lemma router_create_user_up (env : Env) (s : Store) (nu : SchemaUser) :
  Router.create_user Up env s nu =
  match flush (InsertUser (su_name nu) (str_uuid (uuid env)) (su_login nu) (su_password nu)) s with
  | inl (IntegrityError, s1) => (HErr 409, s1)
  | inl (_, s1) => (HErr 500, s1)
  | inr s' => (HOk 201 (BResult (mkResult 201 "Успешно"
                                   (Some "Пользователь успешно создан"%string))), s')
  end.
Proof.
  unfold Router.create_user, MiddleLoyeUser.new_user, DataBaseUser.create_user.
  cbn [su_name su_token su_login su_password].
  generalize (str_uuid (uuid env)) as tok. intros tok.
  rewrite commit_up. destruct (flush _ s) as [[[] s1]|s']; reflexivity.
Qed.

End Outcomes.

Section Answers.

Context `{DbConfig}.

Lemma check_token_up_conn (s : Store) (token : string) :
  snd (MiddleLoyeUser.check_token Up s token) = Up.
Proof.
  unfold MiddleLoyeUser.check_token. rewrite db_find_token_up.
  destruct (match parse_uuid token with Some v => _ | None => None end); reflexivity.
Qed.

Lemma prefix_token (t : string) : String.prefix "token=" ("token=" ++ t) = true.
Proof. destruct t; reflexivity. Qed.

Lemma authenticate_unknown (c : Conn) (s : Store) (v : SchemaVerification) :
  ~ has_credentials s (sv_login v) (sv_password v) ->
  Router.authenticate_user c s v = HErr 401.
Proof.
  intros Hno. unfold Router.authenticate_user, MiddleLoyeUser.verification,
    DataBaseUser.get_verification, run.
  destruct (conn_error c) as [[e|]|]; [reflexivity|reflexivity|].
  destruct (text_ok (sv_login v) && text_ok (sv_password v)); [|reflexivity].
  destruct (find _ _) as [u|] eqn:E; [|reflexivity].
  exfalso. apply find_some in E as [Hin Hp].
  apply andb_true_iff in Hp as [Hl Hpw].
  apply Hno. exists u. split; [now apply scan_users_in|].
  split; now apply String.eqb_eq.
Qed.

Lemma authenticate_found (s : Store) (v : SchemaVerification) (u : User) :
  text_ok (sv_login v) && text_ok (sv_password v) = true ->
  find (fun u => String.eqb (u_login u) (sv_login v) &&
                 String.eqb (u_password u) (sv_password v)) (scan_users (users s)) = Some u ->
  has_char "=" (u_token u) = false ->
  Router.authenticate_user Up s v = HOk 200 (BToken (u_token u)).
Proof.
  intros Ht Hf Hq. unfold Router.authenticate_user, MiddleLoyeUser.verification,
    DataBaseUser.get_verification. rewrite Ht.
  unfold run. cbv beta iota zeta delta [conn_error Up]. rewrite Hf.
  revert Hq. generalize (u_token u) as t. intros t Hq.
  cbn [status_code description fst]. cbv beta iota zeta.
  rewrite prefix_token, split_token_prefix, (split_char_none _ _ Hq). reflexivity.
Qed.

End Answers.

Section InsertionSort.

Variable A : Type.
Variable ge : A -> A -> bool.
Hypothesis ge_total : forall a b, ge a b = false -> ge b a = true.


Lemma insert_by_perm (x : A) (l : list A) : Permutation (insert_by ge x l) (x :: l).
Proof.
  induction l as [|y l IH]; simpl; auto.
  destruct (ge x y); auto.
  rewrite IH. apply perm_swap.
Qed.

Lemma sort_rows_perm (l : list A) : Permutation (sort_rows ge l) l.
Proof.
  induction l as [|x l IH]; simpl; auto.
  rewrite insert_by_perm. now constructor.
Qed.



End InsertionSort.

Section Rows.

Context `{DbConfig}.


Lemma author_rows_perm (s : Store) (author : option Z) :
  Permutation (match author with
               | None => scan_posts (posts s)
               | Some a => filter (fun p => p_author p =? a) (scan_posts (posts s))
               end) (matching_posts s author).
Proof. destruct author; simpl; [apply Permutation_filter_l|]; apply scan_posts_perm. Qed.


Lemma reachable_token_stored (s : Store) (u : User) :
  reachable s -> In u (users s) -> token_stored s (u_token u).
Proof.
  intros Hr Hu. destruct (reachable_store_ok s Hr) as [_ [_ [Htok _]]].
  destruct (Htok u Hu) as [g Hg]. destruct (parse_str_uuid_canon g) as [v [Hp Hv]].
  exists u, v. rewrite Hg. auto.
Qed.

Lemma get_post_some (c c' : Conn) (s : Store) (pid : Z) (post : Post) :
  DataBasePost.get_post c s pid = (Ret (Some post), c') ->
  p_id post = pid /\ In post (posts s).
Proof.
  unfold DataBasePost.get_post, run.
  destruct (conn_error c) as [[e|]|]; try discriminate.
  destruct (find _ _) as [q|] eqn:E; [|discriminate].
  intros Hg. injection Hg as <- _. apply find_some in E as [Hin Hq].
  split; [now apply Z.eqb_eq | now apply scan_posts_in].
Qed.

(** The answer to fetching the post [p] of author [u], on a store whose
    ids identify the rows. *)
Lemma router_get_post_found (s : Store) (p : Post) (u : User) :
  In p (posts s) -> (forall q, In q (posts s) -> p_id q = p_id p -> q = p) ->
  In u (users s) -> u_id u = p_author p -> NoDup (map u_id (users s)) ->
  Router.get_post Up s (p_id p) =
  HOk 200 (BPost (mkPostView (p_title p) (p_text p) (shown_author u)
                             (strftime_minute (p_created_at p)))).
Proof.
  intros Hp Hpu Hu Hua Hnd.
  unfold Router.get_post, MiddleLoyePost.get_post. rewrite db_get_post_up.
  assert (Hfp : find (fun q => p_id q =? p_id p) (scan_posts (posts s)) = Some p).
  { apply find_unique_row.
    - now apply (proj1 (scan_posts_in _ _)).
    - apply Z.eqb_refl.
    - intros q Hq Hqe. apply Hpu.
      + now apply (proj2 (scan_posts_in _ _)).
      + now apply Z.eqb_eq. }
  rewrite Hfp. cbv beta iota. rewrite db_post_get_user_up.
  assert (Hfu : find (fun y => u_id y =? p_author p) (scan_users (users s)) = Some u).
  { apply find_unique_row.
    - now apply (proj1 (scan_users_in _ _)).
    - now apply Z.eqb_eq.
    - intros y Hy Hye. apply Z.eqb_eq in Hye. rewrite <- Hua in Hye.
      apply (proj2 (scan_users_in _ _)) in Hy.
      exact (NoDup_map_inj u_id _ y u Hnd Hy Hu Hye). }
  rewrite Hfu.
  reflexivity.
Qed.

End Rows.


Lemma set_title_text_frame (title text : option string) (p : Post) :
  p_id (set_title_text title text p) = p_id p /\
  p_author (set_title_text title text p) = p_author p /\
  p_created_at (set_title_text title text p) = p_created_at p.
Proof. repeat split. Qed.

Lemma commit_update_frame (c c' : Conn) (id : Z) (title text : option string) (s s' : Store) :
  commit c (UpdatePost id title text) s = (None, c', s') ->
  users s' = users s /\
  Forall2 (fun p p' => p_id p' = p_id p /\ p_author p' = p_author p /\
                       p_created_at p' = p_created_at p /\ (p_id p <> id -> p' = p))
          (posts s) (posts s').
Proof.
  intros Hc. apply commit_none_flush in Hc. simpl in Hc.
  assert (Hrefl : forall ps, Forall2 (fun p p' => p_id p' = p_id p /\ p_author p' = p_author p /\
                       p_created_at p' = p_created_at p /\ (p_id p <> id -> p' = p)) ps ps).
  { induction ps; constructor; auto. }
  destruct title as [t|], text as [x|];
    try (injection Hc as <-; split; [reflexivity|apply Hrefl]);
    (destruct (negb _); [discriminate|]); (destruct (negb _); [discriminate|]);
    injection Hc as <-; (split; [reflexivity|]); simpl;
    (induction (posts s) as [|p ps IH]; simpl; constructor; auto);
    (destruct (p_id p =? id) eqn:E; [apply Z.eqb_eq in E|]);
    repeat split; auto; intros Hne; contradiction.
Qed.

(** ** C1: deleting a user deletes the user and all their posts *)

(** C1: for every user id present in the store (post ids being a primary
    key), DELETE /users/{user_id} answers 200, the database being
    reachable, and its only effect is to remove the users with that id and
    every post whose author is that id, whether or not the user has posts,
    whatever order the database returns rows in. *)
Theorem delete_user_cascade `{DbConfig} (s : Store) (user_id : Z) (u : User)
  (Hpk : NoDup (map p_id (posts s)))
  (Hin : In u (users s)) (Hid : u_id u = user_id) :
  Router.delete_user Up s user_id =
  (HOk 200 (BMessage "User and all their posts were deleted"),
   store_without_user s user_id).
Proof.
  assert (Hfind : exists v, find (fun u => u_id u =? user_id) (scan_users (users s)) = Some v).
  { apply (find_in_some _ _ u); [now apply (proj1 (scan_users_in _ _)) | now apply Z.eqb_eq]. }
  destruct Hfind as [v Hv].
  pose proof (find_some _ _ Hv) as [_ Hvid]. apply Z.eqb_eq in Hvid.
  pose proof (Permutation_filter_l (fun p => p_author p =? user_id) _ _ (scan_posts_perm (posts s)))
    as Hperm.
  unfold Router.delete_user, MiddleLoyePost.delete_post_user, DataBasePost.delete_posts_user.
  rewrite db_get_posts_up.
  change (select_posts (DataBasePost.posts_statement (mkFilterParams None None (Some user_id))) s)
    with (@inr DbError _ (filter (fun p => p_author p =? user_id) (scan_posts (posts s)))).
  cbv beta iota.
  destruct (filter (fun p => p_author p =? user_id) (scan_posts (posts s))) as [|q qs] eqn:Ef.
  - cbn.
    assert (Hnil : filter (fun p => p_author p =? user_id) (posts s) = [])
      by (apply Permutation_nil; exact Hperm).
    unfold MiddleLoyeUser.delete_user, DataBaseUser.delete_user.
    rewrite db_user_get_user_up, Hv. cbv beta iota.
    rewrite commit_up. unfold flush. cbv beta iota.
    rewrite Hvid, (filter_nil_existsb _ _ Hnil).
    unfold store_without_user. rewrite (filter_negb_nil _ _ Hnil). reflexivity.
  - cbv beta iota. rewrite commit_up. unfold flush. cbv beta iota.
    assert (Hdel : filter (fun p => negb (existsb (Z.eqb (p_id p)) (map p_id (q :: qs)))) (posts s)
                   = filter (fun p => negb (p_author p =? user_id)) (posts s)).
    { transitivity (filter (fun p => negb (existsb (Z.eqb (p_id p))
                        (map p_id (filter (fun p => p_author p =? user_id) (posts s))))) (posts s)).
      - apply filter_ext. intros p. f_equal. apply existsb_perm, Permutation_map. exact Hperm.
      - apply delete_selected_posts. exact Hpk. }
    rewrite Hdel. simpl.
    unfold MiddleLoyeUser.delete_user, DataBaseUser.delete_user.
    rewrite db_user_get_user_up. cbn [users]. rewrite Hv. cbv beta iota.
    rewrite commit_up. unfold flush. cbv beta iota. cbn [users posts users_id_seq post_id_seq].
    rewrite Hvid.
    replace (existsb (fun p => p_author p =? user_id)
               (filter (fun p => negb (p_author p =? user_id)) (posts s))) with false.
    2:{ symmetry. apply existsb_forall_false. intros p Hp. apply filter_In in Hp as [_ Hp].
        now destruct (p_author p =? user_id). }
    reflexivity.
Qed.

(** ** C2: the token check of the post mutations *)

(** C2 (amended): a create, update or delete of a post whose token does
    not denote, as a uuid, the stored token of a user is answered 403 and
    leaves the store as it was, whatever happens on the connection; a
    token that denotes one passes the check (the database being
    reachable), and so does, in every reachable store, every user's stored
    token. *)
Theorem post_mutation_token_gate `{DbConfig} (c : Conn) (env : Env) (s : Store)
  (token : string) :
  (forall m, ~ token_stored s token -> post_mutation c env s token m = (HErr 403, s)) /\
  (token_stored s token -> Router.verify_token Up s token = true) /\
  (reachable s -> forall u, In u (users s) -> Router.verify_token Up s (u_token u) = true).
Proof.
  split; [|split].
  - intros m Hns. pose proof (check_token_unstored c s token Hns) as Hf.
    destruct m; simpl;
      unfold Router.create_post, Router.update_post, Router.delete_post;
      destruct (MiddleLoyeUser.check_token c s token) as [ok c1]; simpl in Hf; now subst ok.
  - intros Hs. unfold Router.verify_token. now rewrite (check_token_stored s token Hs).
  - intros Hr u Hu. unfold Router.verify_token.
    now rewrite (check_token_stored s _ (reachable_token_stored s u Hr Hu)).
Qed.

(** ** C3: logging in returns the token issued at creation *)

(** C3 (amended): once a user is created with login L and password P, and
    no user stored before it has that login and password, logging in with
    (L, P) answers 200 with the token issued at the creation.  On a
    reachable store, a (login, password) pair that some users share is
    answered with the token of one of them (whichever row the database
    returns first).  A pair stored for no user is answered 401, with no
    token, whatever happens on the connection. *)
Theorem login_returns_issued_token `{DbConfig} :
  (forall (env : Env) (s s' : Store) (nu : SchemaUser) (body : Body),
     Router.create_user Up env s nu = (HOk 201 body, s') ->
     ~ has_credentials s (su_login nu) (su_password nu) ->
     Router.authenticate_user Up s' (mkSchemaVerification (su_login nu) (su_password nu)) =
     HOk 200 (BToken (str_uuid (uuid env)))) /\
  (forall (s : Store) (login password : string),
     reachable s -> has_credentials s login password ->
     exists u, In u (users s) /\ u_login u = login /\ u_password u = password /\
       Router.authenticate_user Up s (mkSchemaVerification login password) =
       HOk 200 (BToken (u_token u))) /\
  (forall (c : Conn) (s : Store) (v : SchemaVerification),
     ~ has_credentials s (sv_login v) (sv_password v) ->
     Router.authenticate_user c s v = HErr 401).
Proof.
  split; [|split; [|exact authenticate_unknown]].
  - intros env s s' nu body Hc Hno.
    apply router_create_user_ok, flush_insert_user_ok in Hc
      as [v [Hp [Ht [_ [_ ->]]]]].
    destruct (parse_str_uuid_canon (uuid env)) as [v' [Hp' Hv']].
    rewrite Hp in Hp'. injection Hp' as <-. rewrite <- Hv'.
    pose proof (str_uuid_no_eq v) as Hq. revert Hq.
    generalize (str_uuid v) as tok. intros tok Hq.
    set (nu' := mkUser (users_id_seq s) (su_name nu) tok (su_login nu) (su_password nu)).
    assert (Hf : find (fun u => String.eqb (u_login u) (su_login nu) &&
                                String.eqb (u_password u) (su_password nu))
                      (scan_users (users (mkStore (users s ++ [nu']) (posts s)
                                                  (users_id_seq s + 1) (post_id_seq s))))
                 = Some nu').
    { apply find_unique_row.
      - apply (proj1 (scan_users_in _ _)). apply in_or_app. right. now left.
      - simpl. now rewrite !String.eqb_refl.
      - intros y Hy Hyp. apply (proj2 (scan_users_in _ _)), in_app_or in Hy as [Hy|[Hy|[]]];
          [|auto].
        exfalso. apply Hno. apply andb_true_iff in Hyp as [Hl Hpw].
        exists y. split; [exact Hy|]. split; now apply String.eqb_eq. }
    assert (Htxt : text_ok (sv_login (mkSchemaVerification (su_login nu) (su_password nu))) &&
                   text_ok (sv_password (mkSchemaVerification (su_login nu) (su_password nu)))
                   = true).
    { simpl. apply andb_true_iff in Ht as [Ht Ht3]. apply andb_true_iff in Ht as [_ Ht2].
      now rewrite Ht2, Ht3. }
    exact (authenticate_found _ _ nu' Htxt Hf Hq).
  - intros s login password Hr [u0 [Hu0 [Hl0 Hp0]]].
    destruct (reachable_store_ok s Hr) as [_ [_ [Htok [[Htu _] _]]]].
    destruct (find_in_some (fun u => String.eqb (u_login u) login &&
                                     String.eqb (u_password u) password)
                           (scan_users (users s)) u0) as [w Hw].
    { now apply (proj1 (scan_users_in _ _)). }
    { rewrite Hl0, Hp0. now rewrite !String.eqb_refl. }
    pose proof Hw as Hw'. apply find_some in Hw' as [Hwin Hwp].
    apply (proj2 (scan_users_in _ _)) in Hwin. apply andb_true_iff in Hwp as [Hl Hpw].
    apply String.eqb_eq in Hl, Hpw.
    exists w. split; [exact Hwin|]. split; [exact Hl|]. split; [exact Hpw|].
    apply (authenticate_found s (mkSchemaVerification login password) w); simpl.
    + specialize (Htu u0 Hu0). rewrite <- Hl0, <- Hp0.
      apply andb_true_iff in Htu as [Htu Htp]. apply andb_true_iff in Htu as [_ Htl].
      now rewrite Htl, Htp.
    + exact Hw.
    + destruct (Htok w Hwin) as [g ->]. apply str_uuid_no_eq.
Qed.

(** ** C4: the post listing *)


(** ** C5: the (name, login) uniqueness *)

(** C5 (amended): in every reachable store at most one user has a given
    (name, login) pair.  With the database reachable, creating a user whose
    (name, login) is a stored user's, with a name, login and password free
    of U+0000 and the users id sequence not past 2147483647, is answered
    409 and leaves the user table unchanged.  A creation whose name, login
    or password holds U+0000 is answered 500 and leaves the store
    unchanged, whatever happens on the connection. *)
Theorem name_login_unique `{DbConfig} :
  (forall s, reachable s -> NoDup (name_login_pairs s)) /\
  (forall (env : Env) (s : Store) (nu : SchemaUser) (u : User),
     In u (users s) -> u_name u = su_name nu -> u_login u = su_login nu ->
     text_ok (su_name nu) && text_ok (su_login nu) && text_ok (su_password nu) = true ->
     users_id_seq s <= int4_max ->
     exists s', Router.create_user Up env s nu = (HErr 409, s') /\ users s' = users s) /\
  (forall (c : Conn) (env : Env) (s : Store) (nu : SchemaUser),
     text_ok (su_name nu) && text_ok (su_login nu) && text_ok (su_password nu) = false ->
     Router.create_user c env s nu = (HErr 500, s)).
Proof.
  split; [|split].
  - intros s Hr. now destruct (reachable_store_ok s Hr) as [_ [_ [_ [_ [_ Hnd]]]]].
  - intros env s nu u Hu Hn Hl Ht Hseq. rewrite router_create_user_up.
    destruct (parse_str_uuid_canon (uuid env)) as [v [Hp _]].
    assert (Hsl : existsb (same_name_login (su_name nu) (su_login nu)) (users s) = true).
    { apply existsb_exists. exists u. split; [exact Hu|].
      unfold same_name_login. rewrite Hn, Hl. now rewrite !String.eqb_refl. }
    assert (Hlt : (int4_max <? users_id_seq s) = false) by (apply Z.ltb_ge; lia).
    unfold flush. rewrite Hp, Ht, Hlt, Hsl, orb_true_r.
    cbv beta iota zeta. eexists. split; reflexivity.
  - intros c env s nu Ht.
    unfold Router.create_user, MiddleLoyeUser.new_user, DataBaseUser.create_user.
    cbn [su_name su_token su_login su_password].
    generalize (str_uuid (uuid env)) as tok. intros tok.
    unfold commit. destruct c as [|[] c]; simpl conn_error; cbv beta iota;
      try reflexivity.
    all: unfold flush; destruct (parse_uuid tok); [rewrite Ht|]; reflexivity.
Qed.

(** ** C6: a created post is fetched with its fields *)

(** C6 (amended): on a reachable store, after a post creation answered 201,
    the new post (id: the value the post sequence had) is stored with the
    requested title, text and author, its author [u] is a stored user, and
    fetching the post answers 200 with that title and text, the author's
    display name, or the placeholder "Неизвестный автор" when that name is
    empty, and the minute of the post's creation timestamp. *)
Theorem create_then_get_post `{DbConfig} (c : Conn) (env : Env) (s s' : Store)
  (token : string) (sp : SchemaPost) (body : Body) :
  reachable s ->
  Router.create_post c env s token sp = (HOk 201 body, s') ->
  exists p u,
    In p (posts s') /\ p_id p = post_id_seq s /\ p_title p = sp_title sp /\
    p_text p = sp_text sp /\ p_author p = sp_author sp /\
    In u (users s') /\ u_id u = sp_author sp /\
    Router.get_post Up s' (p_id p) =
    HOk 200 (BPost (mkPostView (sp_title sp) (sp_text sp) (shown_author u)
                               (strftime_minute (p_created_at p)))).
Proof.
  intros Hr Hc. apply router_create_post_ok in Hc as [_ Hf].
  apply flush_insert_post_ok in Hf as [Hclash [Hauth ->]].
  destruct (reachable_store_ok s Hr) as [_ [[Hndu [_ [_ Hplt]]] _]].
  apply existsb_exists in Hauth as [u [Hu Hua]]. apply Z.eqb_eq in Hua.
  set (p := mkPost (post_id_seq s) (sp_title sp) (sp_author sp) (sp_text sp) (import_time env)).
  exists p, u. simpl.
  assert (Hp : In p (posts s ++ [p])) by (apply in_or_app; right; now left).
  do 7 (split; [first [exact Hp | exact Hu | exact Hua | reflexivity]|]).
  apply (router_get_post_found (mkStore (users s) (posts s ++ [p]) (users_id_seq s)
                                        (post_id_seq s + 1)) p u); simpl; auto.
  intros q Hq Hqe. apply in_app_or in Hq as [Hq|[Hq|[]]]; [|auto].
  specialize (Hplt q Hq). simpl in Hqe. lia.
Qed.

(** ** C9: the token of a new user is generated by the server *)

(** C9: the stored token of a user created through POST /users is
    [str(uuid4())], produced during the request; two creation requests that
    differ only in the token field of the body have the same outcome. *)
Theorem new_user_token_generated (c : Conn) (env : Env) (s : Store)
  (name login password t1 t2 : string) :
  Router.create_user c env s (mkSchemaUser name t1 login password) =
  Router.create_user c env s (mkSchemaUser name t2 login password) /\
  (forall body s',
     Router.create_user c env s (mkSchemaUser name t1 login password) = (HOk 201 body, s') ->
     exists u, users s' = users s ++ [u] /\ u_token u = str_uuid (uuid env)).
Proof.
  split.
  - unfold Router.create_user, MiddleLoyeUser.new_user.
    cbn [su_name su_token su_login su_password]. reflexivity.
  - intros body s' Hc. apply router_create_user_ok, flush_insert_user_ok in Hc
      as [v [Hp [_ [_ [_ ->]]]]].
    rewrite parse_str_uuid in Hp. injection Hp as Hv. subst v.
    eexists. split; [reflexivity|]. simpl. apply str_uuid_mod.
Qed.

(** ** C10: updating a post changes only its title and text *)

(** C10: a successful PATCH /posts/{post_id} leaves the user table as it
    was, keeps every post row in place with its id, author and creation
    timestamp, and leaves every post with another id unchanged. *)
Theorem update_post_frame `{DbConfig} (c : Conn) (s s' : Store) (token : string)
  (post_id : Z) (upd : SchemaPostUpdate) (body : Body) :
  Router.update_post c s token post_id upd = (HOk 200 body, s') ->
  users s' = users s /\
  Forall2 (fun p p' => p_id p' = p_id p /\ p_author p' = p_author p /\
                       p_created_at p' = p_created_at p /\
                       (p_id p <> post_id -> p' = p))
          (posts s) (posts s').
Proof.
  unfold Router.update_post.
  destruct (MiddleLoyeUser.check_token c s token) as [[|] c1]; [|discriminate].
  destruct (spu_id upd =? post_id) eqn:Eid; simpl negb; cbv iota; [|discriminate].
  apply Z.eqb_eq in Eid.
  unfold MiddleLoyePost.update_post, DataBasePost.update_post.
  destruct (DataBasePost.get_post c1 s (spu_id upd)) as [[[post|]|] c2] eqn:Eg;
    [| simpl; discriminate | simpl; discriminate].
  apply get_post_some in Eg as [Hpid _].
  destruct (commit c2 _ s) as [[o c3] s3] eqn:Ec.
  destruct o as [[e|]|]; simpl; intros Hr; try discriminate.
  injection Hr as _ <-. rewrite Hpid, Eid in Ec.
  exact (commit_update_frame _ _ _ _ _ _ _ Ec).
Qed.

(** ** Facts used by the further properties *)

Lemma commit_seq_mono (c : Conn) (w : Write) (s : Store) :
  users_id_seq s <= users_id_seq (snd (commit c w s)) /\
  post_id_seq s <= post_id_seq (snd (commit c w s)).
Proof.
  unfold commit. destruct (conn_error c); simpl; [lia|].
  destruct (flush w s) as [[e s1]|s'] eqn:E; simpl.
  - destruct (flush_fail_store w s s1 e E) as [-> | [-> | ->]]; simpl; lia.
  - destruct w; simpl in E.
    + destruct (parse_uuid token); [|discriminate].
      destruct (negb _); [discriminate|]. destruct (int4_max <? users_id_seq s); [discriminate|].
      destruct (_ || _); [discriminate|]. injection E as <-. simpl. lia.
    + destruct (negb _); [discriminate|]. destruct (int4_max <? post_id_seq s); [discriminate|].
      destruct (_ || _); [discriminate|]. injection E as <-. simpl. lia.
    + destruct (existsb _ _); [discriminate|]. injection E as <-. simpl. lia.
    + injection E as <-. simpl. lia.
    + destruct title, text; try (injection E as <-; lia);
        (destruct (negb _); [discriminate|]); (destruct (negb _); [discriminate|]);
        injection E as <-; simpl; lia.
Qed.

Lemma changed_value (old new : string) :
  match DataBasePost.changed old new with Some t => t | None => old end = new.
Proof.
  unfold DataBasePost.changed. destruct (String.eqb_spec old new) as [->|]; reflexivity.
Qed.

Lemma opt_text_changed (old new : string) :
  text_ok new = true -> opt_text_ok (DataBasePost.changed old new) = true.
Proof. unfold DataBasePost.changed. now destruct (String.eqb old new). Qed.

Lemma opt_text_changed_false (old new : string) :
  text_ok old = true -> text_ok new = false -> opt_text_ok (DataBasePost.changed old new) = false.
Proof.
  unfold DataBasePost.changed. intros Ho Hn.
  destruct (String.eqb_spec old new) as [->|]; [congruence|exact Hn].
Qed.

Lemma filter_id_single (l : list Post) (p : Post) :
  NoDup (map p_id l) -> In p l -> List.length (filter (fun x => p_id x =? p_id p) l) = 1%nat.
Proof.
  intros Hnd Hin. induction l as [|a l IH]; [destruct Hin|].
  inversion Hnd as [|? ? Hnotin Hnd']; subst. simpl.
  destruct Hin as [<-|Hin].
  - rewrite Z.eqb_refl. simpl. f_equal.
    assert (Hz : forall m, (forall x, In x m -> p_id x <> p_id a) ->
                 filter (fun x => p_id x =? p_id a) m = []).
    { induction m as [|b m IHm]; simpl; intros Hm; auto.
      rewrite (proj2 (Z.eqb_neq _ _) (Hm b (or_introl eq_refl))). auto. }
    rewrite Hz; [reflexivity|].
    intros x Hx Heq. apply Hnotin. rewrite <- Heq. now apply in_map.
  - destruct (p_id a =? p_id p) eqn:E; [|exact (IH Hnd' Hin)].
    exfalso. apply Z.eqb_eq in E. apply Hnotin. rewrite E. now apply in_map.
Qed.

(** The store after the update of the stored post [p] to [title] and
    [text], when they are valid text values. *)
Lemma update_flush_ok (s : Store) (p : Post) (title text : string) :
  NoDup (map p_id (posts s)) -> In p (posts s) -> text_ok title && text_ok text = true ->
  exists s',
    flush (UpdatePost (p_id p) (DataBasePost.changed (p_title p) title) (DataBasePost.changed (p_text p) text)) s =
      inr s' /\
    users s' = users s /\ users_id_seq s' = users_id_seq s /\
    post_id_seq s' = post_id_seq s /\ NoDup (map p_id (posts s')) /\
    In (mkPost (p_id p) title (p_author p) text (p_created_at p)) (posts s') /\
    (forall q, In q (posts s') -> p_id q = p_id p ->
               q = mkPost (p_id p) title (p_author p) text (p_created_at p)).
Proof.
  intros Hnd Hin Ht. apply andb_true_iff in Ht as [Ht1 Ht2].
  assert (Hu : forall q, In q (posts s) -> p_id q = p_id p -> q = p)
    by (intros q Hq Hqe; exact (NoDup_map_inj p_id _ q p Hnd Hq Hin Hqe)).
  pose proof (changed_value (p_title p) title) as Hv1.
  pose proof (changed_value (p_text p) text) as Hv2.
  unfold flush.
  destruct (DataBasePost.changed (p_title p) title) as [t1|] eqn:E1,
           (DataBasePost.changed (p_text p) text) as [t2|] eqn:E2.
  all: try (rewrite <- E1, <- E2, (opt_text_changed _ _ Ht1), (opt_text_changed _ _ Ht2);
            simpl negb; cbv iota; rewrite (filter_id_single _ _ Hnd Hin); simpl Nat.eqb;
            cbv iota; eexists; split; [reflexivity|]; cbn [users posts users_id_seq post_id_seq];
            split; [reflexivity|]; split; [reflexivity|]; split; [reflexivity|];
            split; [rewrite map_p_id_update; exact Hnd|];
            rewrite E1, E2; subst;
            split;
            [ apply in_map_iff; exists p; rewrite Z.eqb_refl; split; [reflexivity|exact Hin]
            | intros q Hq Hqe; apply in_map_iff in Hq as [x [<- Hx]];
              destruct (p_id x =? p_id p) eqn:Ex;
              [ apply Z.eqb_eq in Ex; rewrite (Hu x Hx Ex); reflexivity
              | rewrite Hqe, Z.eqb_refl in Ex; discriminate ] ]).
  subst. eexists. split; [reflexivity|]. do 4 (split; [first [reflexivity|exact Hnd]|]).
  destruct p as [i ti a tx cr]. split; [exact Hin|].
  intros q Hq Hqe. exact (Hu q Hq Hqe).
Qed.

Section Further.

Context `{DbConfig}.

Lemma find_posts_none (s : Store) (pid : Z) :
  (forall p, In p (posts s) -> p_id p <> pid) ->
  find (fun p => p_id p =? pid) (scan_posts (posts s)) = None.
Proof.
  intros Hno. apply find_none_forall. intros y Hy. apply Z.eqb_neq.
  apply Hno. now apply (proj2 (scan_posts_in _ _)).
Qed.

Lemma find_post_stored (s : Store) (p : Post) :
  NoDup (map p_id (posts s)) -> In p (posts s) ->
  find (fun q => p_id q =? p_id p) (scan_posts (posts s)) = Some p.
Proof.
  intros Hnd Hin. apply find_unique_row.
  - now apply (proj1 (scan_posts_in _ _)).
  - apply Z.eqb_refl.
  - intros q Hq Hqe. apply (proj2 (scan_posts_in _ _)) in Hq. apply Z.eqb_eq in Hqe.
    exact (NoDup_map_inj p_id _ q p Hnd Hq Hin Hqe).
Qed.

Lemma get_post_missing (s : Store) (pid : Z) :
  (forall p, In p (posts s) -> p_id p <> pid) -> Router.get_post Up s pid = HErr 404.
Proof.
  intros Hno. unfold Router.get_post, MiddleLoyePost.get_post. rewrite db_get_post_up.
  now rewrite (find_posts_none s pid Hno).
Qed.

Lemma delete_post_missing (s : Store) (token : string) (pid : Z) :
  token_stored s token -> (forall p, In p (posts s) -> p_id p <> pid) ->
  Router.delete_post Up s token pid = (HErr 404, s).
Proof.
  intros Htok Hno. unfold Router.delete_post. rewrite (check_token_stored s token Htok).
  unfold MiddleLoyePost.delete_post, DataBasePost.delete_post. rewrite db_get_post_up.
  now rewrite (find_posts_none s pid Hno).
Qed.

Lemma check_token_true_stored (c : Conn) (s : Store) (token : string) :
  fst (MiddleLoyeUser.check_token c s token) = true -> token_stored s token.
Proof.
  unfold MiddleLoyeUser.check_token, DataBaseUser.find_token, run.
  destruct (conn_error c) as [[e|]|]; simpl; try discriminate.
  destruct (parse_uuid token) as [v|] eqn:Hp; simpl; [|discriminate].
  destruct (find _ _) as [u|] eqn:E; simpl; [|discriminate]. intros _.
  apply find_some in E as [Hin Heq]. apply String.eqb_eq in Heq.
  exists u, v. split; [now apply (proj2 (scan_users_in _ _))|auto].
Qed.

Lemma no_posts_of (s : Store) (uid : Z) :
  fk_ok s -> (forall u, In u (users s) -> u_id u <> uid) ->
  filter (fun p => p_author p =? uid) (posts s) = [].
Proof.
  intros Hfk Hno. destruct (filter _ (posts s)) as [|q qs] eqn:E; auto.
  assert (Hq : In q (filter (fun p => p_author p =? uid) (posts s))) by (rewrite E; now left).
  apply filter_In in Hq as [Hq Ha]. apply Z.eqb_eq in Ha.
  destruct (Hfk q Hq) as [u [Hu Hid]]. exfalso. apply (Hno u Hu). congruence.
Qed.

(** A user without posts: the deletion of the posts answers 404, and the
    user deletion follows on the same store. *)
Lemma delete_user_no_posts (s : Store) (uid : Z) :
  filter (fun p => p_author p =? uid) (posts s) = [] ->
  Router.delete_user Up s uid =
  let '(user_result, _, s2) := MiddleLoyeUser.delete_user Up s uid in
  if status_code user_result =? 200
  then (HOk 200 (BMessage "User and all their posts were deleted"), s2)
  else (HErr (status_code user_result), s2).
Proof.
  intros Hnone.
  pose proof (Permutation_filter_l (fun p => p_author p =? uid) _ _ (scan_posts_perm (posts s)))
    as Hperm.
  rewrite Hnone in Hperm. apply Permutation_sym, Permutation_nil in Hperm.
  unfold Router.delete_user, MiddleLoyePost.delete_post_user, DataBasePost.delete_posts_user.
  rewrite db_get_posts_up.
  change (select_posts (DataBasePost.posts_statement (mkFilterParams None None (Some uid))) s)
    with (@inr DbError _ (filter (fun p => p_author p =? uid) (scan_posts (posts s)))).
  rewrite Hperm. reflexivity.
Qed.

(** PATCH of the stored post [p] with a stored token, the database being
    reachable: the outcome of the flushed update. *)
Lemma router_update_post_up (s : Store) (token : string) (p : Post) (title text : string) :
  token_stored s token -> NoDup (map p_id (posts s)) -> In p (posts s) ->
  Router.update_post Up s token (p_id p) (mkSchemaPostUpdate (p_id p) title text) =
  match flush (UpdatePost (p_id p) (DataBasePost.changed (p_title p) title) (DataBasePost.changed (p_text p) text)) s with
  | inl (_, s1) => (HErr 500, s1)
  | inr s' => (HOk 200 (BResult (DataBasePost.ok_result 200)), s')
  end.
Proof.
  intros Htok Hnd Hin. unfold Router.update_post. rewrite (check_token_stored s token Htok).
  cbn [spu_id spu_title spu_text]. rewrite Z.eqb_refl. simpl negb. cbv iota.
  unfold MiddleLoyePost.update_post, DataBasePost.update_post. cbn [spu_id spu_title spu_text].
  rewrite db_get_post_up, (find_post_stored s p Hnd Hin). cbv beta iota.
  rewrite commit_up. destruct (flush _ s) as [[e s1]|s']; reflexivity.
Qed.

End Further.

Lemma filter_drop_last {A} (f : A -> bool) (l : list A) (x : A) :
  (forall y, In y l -> f y = true) -> f x = false -> filter f (l ++ [x]) = l.
Proof.
  intros Hl Hx. rewrite filter_app. simpl. rewrite Hx, app_nil_r.
  apply forallb_filter_id. now apply forallb_forall.
Qed.

Lemma NoDup_firstn {A} (k : nat) (l : list A) : NoDup l -> NoDup (firstn k l).
Proof.
  revert l. induction k as [|k IH]; intros l Hnd; [constructor|].
  destruct l as [|a l]; [constructor|]. simpl.
  inversion Hnd as [|? ? Hnotin Hnd']; subst. constructor; auto.
  intros Hin. apply Hnotin. rewrite <- (firstn_skipn k l). apply in_or_app. now left.
Qed.

Lemma in_firstn {A} (k : nat) (l : list A) (x : A) : In x (firstn k l) -> In x l.
Proof. intros Hx. rewrite <- (firstn_skipn k l). apply in_or_app. now left. Qed.

Lemma listed_ok_perm (s : Store) (author : option Z) (rows : list Post) :
  NoDup (map p_id (posts s)) -> Permutation rows (matching_posts s author) ->
  listed_ok s author rows.
Proof.
  intros Hnd Hp. split.
  - intros p Hin. exact (Permutation_in _ Hp Hin).
  - apply (Permutation_NoDup (Permutation_map p_id (Permutation_sym Hp))).
    destruct author; simpl; [now apply NoDup_map_filter|exact Hnd].
Qed.

Lemma listed_ok_firstn (s : Store) (author : option Z) (rows : list Post) (k : nat) :
  listed_ok s author rows -> listed_ok s author (firstn k rows).
Proof.
  intros [Hin Hn]. split.
  - intros p Hp. apply Hin. exact (in_firstn _ _ _ Hp).
  - rewrite <- firstn_map. now apply NoDup_firstn.
Qed.

Section Listing.

Context `{DbConfig}.

Lemma select_posts_listed_ok (s : Store) (fp : FilterParams) (ps : list Post) :
  NoDup (map p_id (posts s)) ->
  select_posts (DataBasePost.posts_statement fp) s = inr ps -> listed_ok s (f_author fp) ps.
Proof.
  intros Hnd. pose proof (author_rows_perm s (f_author fp)) as Hp.
  unfold select_posts. cbn [sel_author sel_order sel_limit DataBasePost.posts_statement].
  set (rows := match f_author fp with
               | Some a => filter (fun p => p_author p =? a) (scan_posts (posts s))
               | None => scan_posts (posts s)
               end) in *.
  assert (Hsorted : listed_ok s (f_author fp)
            match sel_order (DataBasePost.posts_statement fp) with
            | Some k => sort_rows (order_ge k) rows
            | None => rows
            end).
  { apply listed_ok_perm; [exact Hnd|].
    destruct (sel_order _); [|exact Hp].
    exact (Permutation_trans (sort_rows_perm _ _ _) Hp). }
  destruct (f_limit fp) as [n|].
  - destruct (negb (int4 n)); [discriminate|]. destruct (n <? 0); [discriminate|].
    intros E. injection E as <-. now apply listed_ok_firstn.
  - intros E. injection E as <-. exact Hsorted.
Qed.

Lemma select_nonpos_limit (s : Store) (st : SelectPosts) (n : Z) :
  sel_limit st = Some n -> n <= 0 ->
  (exists e, select_posts st s = inl e) \/ select_posts st s = inr [].
Proof.
  intros Hl Hn. unfold select_posts. rewrite Hl.
  destruct (negb (int4 n)); [left; eauto|].
  destruct (n <? 0) eqn:E; [left; eauto|right].
  apply Z.ltb_ge in E. replace (Z.to_nat n) with 0%nat by lia. reflexivity.
Qed.

End Listing.

(** * Further properties of the program *)

(** ** Integrity of every reachable store *)

(** X1: in every store reachable from the empty database, every post's
    author is the id of a stored user: no sequence of requests (a user
    deletion included) leaves a post without its author. *)
Theorem reachable_post_author_exists `{DbConfig} (s : Store) :
  reachable s ->
  forall p, In p (posts s) -> exists u, In u (users s) /\ u_id u = p_author p.
Proof. intros Hr. exact (proj1 (reachable_store_ok s Hr)). Qed.

(** X2: in every reachable store user ids are pairwise distinct and below
    the next value of the users sequence, and post ids are pairwise
    distinct and below the next value of the post sequence. *)
Theorem reachable_ids_fresh `{DbConfig} (s : Store) :
  reachable s ->
  NoDup (map u_id (users s)) /\ (forall u, In u (users s) -> u_id u < users_id_seq s) /\
  NoDup (map p_id (posts s)) /\ (forall p, In p (posts s) -> p_id p < post_id_seq s).
Proof. intros Hr. exact (proj1 (proj2 (reachable_store_ok s Hr))). Qed.

(** X3: in every reachable store each user's token is the text of a uuid
    generated by the server, hence non-empty and free of '='. *)
Theorem reachable_tokens_generated `{DbConfig} (s : Store) :
  reachable s ->
  forall u, In u (users s) ->
    exists g, u_token u = str_uuid g /\ String.eqb (u_token u) "" = false /\
              has_char "=" (u_token u) = false.
Proof.
  intros Hr u Hu. destruct (proj1 (proj2 (proj2 (reachable_store_ok s Hr))) u Hu) as [g Hg].
  exists g. rewrite Hg. split; [reflexivity|].
  split; [apply str_uuid_nonempty|apply str_uuid_no_eq].
Qed.

(** ** The sequences never go back *)

(** X4: no request lowers the next value of either sequence, so an id,
    once handed out, is never handed out again (even after its row is
    deleted). *)
Theorem serve_seq_monotone `{DbConfig} (c : Conn) (env : Env) (s : Store) (req : Request) :
  users_id_seq s <= users_id_seq (snd (serve c env s req)) /\
  post_id_seq s <= post_id_seq (snd (serve c env s req)).
Proof.
  pose proof (serve_commits c env s req) as Hc.
  induction Hc as [s|s s1 c' w Hc IH]; [lia|].
  pose proof (commit_seq_mono c' w s1). lia.
Qed.

(** ** Logging in on a reachable store *)

(** X5: on a reachable store with the database up, logging in succeeds
    exactly when some user has the given login and password.  The token
    returned is the stored token of such a user, and it passes the token
    check of the post mutations. *)
Theorem login_reachable `{DbConfig} (s : Store) (v : SchemaVerification) :
  reachable s ->
  (forall t, Router.authenticate_user Up s v = HOk 200 (BToken t) ->
     exists u, In u (users s) /\ u_login u = sv_login v /\
               u_password u = sv_password v /\ u_token u = t /\
               Router.verify_token Up s t = true) /\
  (has_credentials s (sv_login v) (sv_password v) ->
     exists t, Router.authenticate_user Up s v = HOk 200 (BToken t)).
Proof.
  intros Hr. destruct (reachable_store_ok s Hr) as [_ [_ [Htok [[Htu _] _]]]].
  assert (Hfound : forall u, In u (users s) -> u_login u = sv_login v ->
                     u_password u = sv_password v ->
                     exists w, In w (users s) /\ u_login w = sv_login v /\
                       u_password w = sv_password v /\
                       Router.authenticate_user Up s v = HOk 200 (BToken (u_token w))).
  { intros u0 Hu0 Hl0 Hp0.
    destruct (find_in_some (fun u => String.eqb (u_login u) (sv_login v) &&
                                     String.eqb (u_password u) (sv_password v))
                           (scan_users (users s)) u0) as [w Hw].
    { now apply (proj1 (scan_users_in _ _)). }
    { rewrite Hl0, Hp0. now rewrite !String.eqb_refl. }
    pose proof Hw as Hw'. apply find_some in Hw' as [Hwin Hwp].
    apply (proj2 (scan_users_in _ _)) in Hwin. apply andb_true_iff in Hwp as [Hl Hpw].
    apply String.eqb_eq in Hl, Hpw.
    exists w. split; [exact Hwin|]. split; [exact Hl|]. split; [exact Hpw|].
    apply (authenticate_found s v w).
    - specialize (Htu u0 Hu0). rewrite <- Hl0, <- Hp0.
      apply andb_true_iff in Htu as [Htu Htp]. apply andb_true_iff in Htu as [_ Htl].
      now rewrite Htl, Htp.
    - exact Hw.
    - destruct (Htok w Hwin) as [g ->]. apply str_uuid_no_eq. }
  split.
  - intros t Ha.
    destruct (find (fun u => String.eqb (u_login u) (sv_login v) &&
                             String.eqb (u_password u) (sv_password v))
                   (scan_users (users s))) as [u|] eqn:Hf.
    + apply find_some in Hf as [Hin Hp]. apply (proj2 (scan_users_in _ _)) in Hin.
      apply andb_true_iff in Hp as [Hl Hpw]. apply String.eqb_eq in Hl, Hpw.
      destruct (Hfound u Hin Hl Hpw) as [w [Hw [Hwl [Hwp Haw]]]].
      rewrite Haw in Ha. injection Ha as <-.
      exists w. split; [exact Hw|]. split; [exact Hwl|]. split; [exact Hwp|].
      split; [reflexivity|]. unfold Router.verify_token.
      now rewrite (check_token_stored s _ (reachable_token_stored s w Hr Hw)).
    + exfalso. assert (Hno : ~ has_credentials s (sv_login v) (sv_password v)).
      { intros [u [Hin [Hl Hpw]]].
        pose proof (find_none _ _ Hf u (proj1 (scan_users_in _ _) Hin)) as Hn. simpl in Hn.
        rewrite Hl, Hpw, !String.eqb_refl in Hn. discriminate. }
      rewrite (authenticate_unknown Up s v Hno) in Ha. discriminate.
  - intros [u [Hin [Hl Hpw]]].
    destruct (Hfound u Hin Hl Hpw) as [w [_ [_ [_ Ha]]]]. now exists (u_token w).
Qed.

(** ** Deleting a post *)

(** X6: with a stored token and the database up, deleting a post id that
    no post has answers 404 and changes nothing.  Deleting an existing
    post id answers 200 and removes the rows with that id, leaving the
    users and the other posts as they were; afterwards fetching that id,
    or deleting it again, answers 404. *)
Theorem delete_post_removes `{DbConfig} (s : Store) (token : string) (pid : Z) :
  token_stored s token ->
  ((forall p, In p (posts s) -> p_id p <> pid) ->
   Router.delete_post Up s token pid = (HErr 404, s)) /\
  ((exists p, In p (posts s) /\ p_id p = pid) ->
   let s' := mkStore (users s) (filter (fun p => negb (p_id p =? pid)) (posts s))
                     (users_id_seq s) (post_id_seq s) in
   (exists body, Router.delete_post Up s token pid = (HOk 200 body, s')) /\
   Router.get_post Up s' pid = HErr 404 /\
   Router.delete_post Up s' token pid = (HErr 404, s')).
Proof.
  intros Htok. split; [exact (delete_post_missing s token pid Htok)|].
  intros [p [Hin Hid]] s'.
  assert (Hgone : forall q, In q (posts s') -> p_id q <> pid).
  { intros q Hq. simpl in Hq. apply filter_In in Hq as [_ Hq].
    intros Heq. rewrite Heq, Z.eqb_refl in Hq. discriminate. }
  split; [|split].
  - unfold Router.delete_post. rewrite (check_token_stored s token Htok).
    unfold MiddleLoyePost.delete_post, DataBasePost.delete_post. rewrite db_get_post_up.
    destruct (find_in_some (fun p => p_id p =? pid) (scan_posts (posts s)) p) as [q Hq];
      [now apply (proj1 (scan_posts_in _ _)) | now apply Z.eqb_eq |].
    rewrite Hq. apply find_some in Hq as [_ Hqid]. apply Z.eqb_eq in Hqid.
    cbv beta iota. rewrite commit_up. unfold flush. cbv beta iota.
    rewrite Hqid. eexists. unfold s'.
    rewrite (filter_ext (fun x => negb (existsb (Z.eqb (p_id x)) [pid]))
                        (fun x => negb (p_id x =? pid))); [reflexivity|].
    intros x. simpl. now rewrite orb_false_r.
  - exact (get_post_missing s' pid Hgone).
  - apply delete_post_missing; [|exact Hgone].
    destruct Htok as [u [v [Hu Ht]]]. now exists u, v.
Qed.

(** ** Updating a post *)

(** X7: with a stored token and the database up, a PATCH whose body id
    differs from the path id answers 400, and one naming a post id that no
    post has answers 404; both leave the store unchanged. *)
Theorem update_post_rejections `{DbConfig} (s : Store) (token : string) (pid : Z)
  (upd : SchemaPostUpdate) :
  token_stored s token ->
  (spu_id upd <> pid -> Router.update_post Up s token pid upd = (HErr 400, s)) /\
  ((forall p, In p (posts s) -> p_id p <> pid) -> spu_id upd = pid ->
   Router.update_post Up s token pid upd = (HErr 404, s)).
Proof.
  intros Htok. unfold Router.update_post. rewrite (check_token_stored s token Htok).
  split.
  - intros Hne. apply Z.eqb_neq in Hne. now rewrite Hne.
  - intros Hno Heq. rewrite Heq, Z.eqb_refl. simpl negb. cbv iota.
    unfold MiddleLoyePost.update_post, DataBasePost.update_post. rewrite db_get_post_up.
    rewrite Heq, (find_posts_none s pid Hno). reflexivity.
Qed.

(** X8: on a reachable store, with a stored token and the database up, a
    PATCH of an existing post (body id equal to the path id) whose title
    and text are free of U+0000 answers 200; fetching the post afterwards
    shows the new title and text, with its author's display (the name, or
    the placeholder when it is empty) and creation minute as before.  A
    title or text holding U+0000 is answered 500 and changes nothing. *)
Theorem update_then_get_post `{DbConfig} (s : Store) (token : string) (p : Post)
  (title text : string) :
  reachable s -> token_stored s token -> In p (posts s) ->
  (text_ok title && text_ok text = true ->
   exists body s',
     Router.update_post Up s token (p_id p) (mkSchemaPostUpdate (p_id p) title text) =
       (HOk 200 body, s') /\
     exists u, In u (users s) /\ u_id u = p_author p /\
       Router.get_post Up s' (p_id p) =
       HOk 200 (BPost (mkPostView title text (shown_author u)
                                  (strftime_minute (p_created_at p))))) /\
  (text_ok title && text_ok text = false ->
   Router.update_post Up s token (p_id p) (mkSchemaPostUpdate (p_id p) title text) =
     (HErr 500, s)).
Proof.
  intros Hr Htok Hin.
  destruct (reachable_store_ok s Hr) as [Hfk [[Hndu [_ [Hnd _]]] [_ [[_ Htp] _]]]].
  rewrite (router_update_post_up s token p title text Htok Hnd Hin).
  split.
  - intros Ht. destruct (update_flush_ok s p title text Hnd Hin Ht)
      as [s' [Hf [Hus [_ [_ [Hnd' [Hin' Huniq]]]]]]].
    rewrite Hf. do 2 eexists. split; [reflexivity|].
    destruct (Hfk p Hin) as [u [Hu Hua]]. exists u. split; [exact Hu|]. split; [exact Hua|].
    exact (router_get_post_found s' (mkPost (p_id p) title (p_author p) text (p_created_at p)) u
             Hin' Huniq (eq_ind_r (fun l => In u l) Hu Hus) Hua
             (eq_ind_r (fun l => NoDup (map u_id l)) Hndu Hus)).
  - intros Ht. specialize (Htp p Hin). apply andb_true_iff in Htp as [Ho1 Ho2].
    assert (Hbad : opt_text_ok (DataBasePost.changed (p_title p) title) &&
                   opt_text_ok (DataBasePost.changed (p_text p) text) = false).
    { destruct (text_ok title) eqn:E1.
      - rewrite (opt_text_changed _ _ E1). simpl in Ht. simpl.
        exact (opt_text_changed_false _ _ Ho2 Ht).
      - now rewrite (opt_text_changed_false _ _ Ho1 E1). }
    unfold flush.
    destruct (DataBasePost.changed (p_title p) title) as [t1|],
             (DataBasePost.changed (p_text p) text) as [t2|];
      try discriminate; rewrite Hbad; reflexivity.
Qed.

(** ** Limits of the listing *)

(** X9: with the database up, a listing whose limit is zero or negative
    answers 200 with an empty list, for an empty sort field as for
    "created_at" or "title": a negative limit, refused by the database, is
    not reported as an error. *)
Theorem list_posts_nonpositive_limit `{DbConfig} (s : Store) (sort_by : string) (n : Z)
  (author : option Z) :
  sort_by = ""%string \/ sort_by = "created_at"%string \/ sort_by = "title"%string ->
  n <= 0 ->
  Router.get_posts Up s sort_by (Some n) author = HOk 200 (BPosts []).
Proof.
  intros Hsort Hn.
  unfold Router.get_posts, MiddleLoyePost.get_posts.
  set (fp := mkFilterParams _ (Some n) author).
  rewrite db_get_posts_up.
  assert (Hfetch : match (match select_posts (DataBasePost.posts_statement fp) s with
                          | inl _ => Ret None
                          | inr rows => Ret (Some rows)
                          end, Up) with
                   | (Escaped, c1) => (ListError "Ошибка при получении постов", c1)
                   | (Ret (None | Some []), c1) => (PostList [], c1)
                   | (Ret (Some ps), c1) => (PostList (map MiddleLoyePost.summary ps), c1)
                   end = (PostList [], Up)).
  { destruct (select_nonpos_limit s (DataBasePost.posts_statement fp) n eq_refl Hn)
      as [[e ->] | ->]; reflexivity. }
  destruct Hsort as [-> | [-> | ->]]; simpl f_desc; cbv beta iota zeta;
    rewrite Hfetch; reflexivity.
Qed.

(** ** Deleting a user *)

(** X10: on a reachable store with the database up, deleting a user id
    that no user has answers 404 and leaves the store unchanged (the user
    has no posts, since every post's author exists). *)
Theorem delete_missing_user `{DbConfig} (s : Store) (uid : Z) :
  reachable s -> (forall u, In u (users s) -> u_id u <> uid) ->
  Router.delete_user Up s uid = (HErr 404, s).
Proof.
  intros Hr Hno.
  rewrite (delete_user_no_posts s uid (no_posts_of s uid (proj1 (reachable_store_ok s Hr)) Hno)).
  unfold MiddleLoyeUser.delete_user, DataBaseUser.delete_user. rewrite db_user_get_user_up.
  rewrite find_none_forall; [reflexivity|].
  intros y Hy. apply Z.eqb_neq. apply Hno. now apply (proj2 (scan_users_in _ _)).
Qed.

(** X11: on a reachable store with the database up, a user just created
    with success can be deleted at once through its id (the sequence's
    value at creation): the deletion answers 200 and the users and posts
    tables are again those from before the creation. *)
Theorem create_then_delete_user `{DbConfig} (env : Env) (s s1 : Store) (nu : SchemaUser)
  (body : Body) :
  reachable s -> Router.create_user Up env s nu = (HOk 201 body, s1) ->
  exists s2,
    Router.delete_user Up s1 (users_id_seq s) =
      (HOk 200 (BMessage "User and all their posts were deleted"), s2) /\
    users s2 = users s /\ posts s2 = posts s.
Proof.
  intros Hr Hc. destruct (reachable_store_ok s Hr) as [Hfk [[_ [Hus _]] _]].
  apply router_create_user_ok, flush_insert_user_ok in Hc as [v [_ [_ [_ [_ ->]]]]].
  generalize (str_uuid v) as tok. intros tok.
  set (nu' := mkUser (users_id_seq s) (su_name nu) tok (su_login nu) (su_password nu)).
  assert (Hold : forall u, In u (users s) -> u_id u <> users_id_seq s).
  { intros u Hu. specialize (Hus u Hu). lia. }
  assert (Hnone : filter (fun p => p_author p =? users_id_seq s) (posts s) = [])
    by exact (no_posts_of s _ Hfk Hold).
  rewrite (delete_user_no_posts (mkStore (users s ++ [nu']) (posts s) (users_id_seq s + 1)
                                       (post_id_seq s)) (users_id_seq s) Hnone).
  unfold MiddleLoyeUser.delete_user, DataBaseUser.delete_user. rewrite db_user_get_user_up.
  cbn [users].
  rewrite (find_unique_row _ _ nu').
  - cbv beta iota. rewrite commit_up. unfold flush. cbn [posts users]. cbv beta iota.
    change (u_id nu') with (users_id_seq s).
    rewrite (filter_nil_existsb _ _ Hnone).
    eexists. split; [reflexivity|]. split; [|reflexivity]. cbn [users].
    apply filter_drop_last.
    + intros u Hu. apply negb_true_iff, Z.eqb_neq. exact (Hold u Hu).
    + simpl. now rewrite Z.eqb_refl.
  - apply (proj1 (scan_users_in _ _)). apply in_or_app. right. now left.
  - apply Z.eqb_refl.
  - intros y Hy Hye. apply (proj2 (scan_users_in _ _)), in_app_or in Hy as [Hy|[Hy|[]]];
      [|auto].
    apply Z.eqb_eq in Hye. exfalso. exact (Hold y Hy Hye).
Qed.

(** ** Creating then deleting a post *)

(** X12: on a reachable store with the database up, a post just created
    with success can be deleted at once, with the same token, through its
    id (the sequence's value at creation): the deletion answers 200 and
    the users and posts tables are again those from before the creation. *)
Theorem create_then_delete_post `{DbConfig} (env : Env) (s s1 : Store) (token : string)
  (sp : SchemaPost) (body : Body) :
  reachable s -> Router.create_post Up env s token sp = (HOk 201 body, s1) ->
  exists body' s2,
    Router.delete_post Up s1 token (post_id_seq s) = (HOk 200 body', s2) /\
    users s2 = users s /\ posts s2 = posts s.
Proof.
  intros Hr Hc. destruct (reachable_store_ok s Hr) as [_ [[_ [_ [_ Hps]]] _]].
  apply router_create_post_ok in Hc as [Hok Hf].
  apply check_token_true_stored in Hok.
  apply flush_insert_post_ok in Hf as [_ [_ ->]].
  set (p := mkPost (post_id_seq s) (sp_title sp) (sp_author sp) (sp_text sp) (import_time env)).
  assert (Hold : forall q, In q (posts s) -> p_id q <> post_id_seq s).
  { intros q Hq. specialize (Hps q Hq). lia. }
  assert (Htok : token_stored (mkStore (users s) (posts s ++ [p]) (users_id_seq s)
                                       (post_id_seq s + 1)) token)
    by (destruct Hok as [u [v Huv]]; now exists u, v).
  unfold Router.delete_post. rewrite (check_token_stored _ token Htok).
  unfold MiddleLoyePost.delete_post, DataBasePost.delete_post. rewrite db_get_post_up.
  cbn [posts].
  rewrite (find_unique_row _ _ p).
  - cbv beta iota. rewrite commit_up. unfold flush. cbv beta iota.
    do 2 eexists. split; [reflexivity|]. split; [reflexivity|]. cbn [posts].
    apply filter_drop_last.
    + intros q Hq. simpl. rewrite orb_false_r. apply negb_true_iff, Z.eqb_neq.
      exact (Hold q Hq).
    + simpl. now rewrite Z.eqb_refl.
  - apply (proj1 (scan_posts_in _ _)). apply in_or_app. right. now left.
  - apply Z.eqb_refl.
  - intros y Hy Hye. apply (proj2 (scan_posts_in _ _)), in_app_or in Hy as [Hy|[Hy|[]]];
      [|auto].
    apply Z.eqb_eq in Hye. exfalso. exact (Hold y Hy Hye).
Qed.

(** ** What a listing contains *)

(** X13: on a reachable store with the database up, every entry of a
    successful listing is the summary of a stored post whose author is the
    requested one (when an author is given), and no post id appears twice
    in it. *)
Theorem list_posts_entries `{DbConfig} (s : Store) (sort_by : string)
  (limit author : option Z) (l : list PostSummary) :
  reachable s ->
  Router.get_posts Up s sort_by limit author = HOk 200 (BPosts l) ->
  (forall e, In e l ->
     exists p, In p (posts s) /\ (forall a, author = Some a -> p_author p = a) /\
               e = MiddleLoyePost.summary p) /\
  NoDup (map ps_id l).
Proof.
  intros Hr Hg. pose proof (proj1 (proj2 (proj2 (proj1 (proj2 (reachable_store_ok s Hr))))))
    as Hnd.
  unfold Router.get_posts, MiddleLoyePost.get_posts in Hg.
  set (fp := mkFilterParams _ limit author) in Hg.
  rewrite db_get_posts_up in Hg.
  assert (Hl : exists ps, listed_ok s author ps /\ l = map MiddleLoyePost.summary ps).
  { assert (Hnil : listed_ok s author []) by (split; [intros ? []|constructor]).
    destruct (select_posts (DataBasePost.posts_statement fp) s) as [e|ps] eqn:E.
    - exists []. split; [exact Hnil|].
      destruct (f_desc fp); [destruct (existsb _ _)|]; simpl in Hg; try discriminate;
        injection Hg as <-; reflexivity.
    - apply (select_posts_listed_ok s fp ps Hnd) in E. destruct ps as [|q qs].
      + exists []. split; [exact Hnil|].
        destruct (f_desc fp); [destruct (existsb _ _)|]; simpl in Hg; try discriminate;
          injection Hg as <-; reflexivity.
      + exists (q :: qs). split; [exact E|].
        destruct (f_desc fp); [destruct (existsb _ _)|]; simpl in Hg; try discriminate;
          injection Hg as <-; reflexivity. }
  destruct Hl as [ps [[Hin Hn] ->]]. split.
  - intros e He. apply in_map_iff in He as [p [<- Hp]].
    exists p. specialize (Hin p Hp). unfold matching_posts in Hin.
    destruct author as [a|].
    + apply filter_In in Hin as [Hin Ha]. apply Z.eqb_eq in Ha.
      split; [exact Hin|]. split; [|reflexivity]. intros a' Ha'. injection Ha' as <-. exact Ha.
    + split; [exact Hin|]. split; [discriminate|reflexivity].
  - rewrite map_map. exact Hn.
Qed.

(** ** Successful creations *)

(** X14: on a reachable store with the database up, a post creation with
    a stored token, whose author is the id of a stored user, whose title
    and text are free of U+0000 and made while the post sequence is not
    past 2147483647, succeeds: it answers 201 and appends the post, with
    the next value of the post sequence as its id and the import-time
    default as its creation time. *)
Theorem create_post_succeeds `{DbConfig} (env : Env) (s : Store) (token : string)
  (sp : SchemaPost) :
  reachable s -> token_stored s token ->
  (exists u, In u (users s) /\ u_id u = sp_author sp) ->
  text_ok (sp_title sp) && text_ok (sp_text sp) = true ->
  post_id_seq s <= int4_max ->
  Router.create_post Up env s token sp =
  (HOk 201 (BResult (DataBasePost.ok_result 201)),
   mkStore (users s)
           (posts s ++ [mkPost (post_id_seq s) (sp_title sp) (sp_author sp) (sp_text sp)
                               (import_time env)])
           (users_id_seq s) (post_id_seq s + 1)).
Proof.
  intros Hr Htok [u [Hu Hid]] Ht Hseq.
  destruct (reachable_store_ok s Hr) as [_ [[_ [_ [_ Hps]]] [_ [_ [[_ [_ [Hge Hle]]] _]]]]].
  assert (Hex : existsb (fun u => u_id u =? sp_author sp) (users s) = true).
  { apply existsb_exists. exists u. split; [exact Hu|]. now apply Z.eqb_eq. }
  assert (Hclash : existsb (fun p => p_id p =? post_id_seq s) (posts s) = false).
  { apply existsb_forall_false. intros p Hp. apply Z.eqb_neq.
    specialize (Hps p Hp). lia. }
  assert (H4 : int4 (sp_author sp) = true).
  { specialize (Hge u Hu). specialize (Hle u Hu). unfold int4, int4_max in *.
    apply andb_true_iff. split; apply Z.leb_le; lia. }
  assert (Hlt : (int4_max <? post_id_seq s) = false) by (apply Z.ltb_ge; lia).
  unfold Router.create_post. rewrite (check_token_stored s token Htok).
  unfold MiddleLoyePost.new_post, DataBasePost.create_post. rewrite commit_up.
  unfold flush. rewrite H4. simpl andb.
  rewrite Ht, Hlt, Hclash, Hex. reflexivity.
Qed.

(** X15: on a reachable store with the database up, a user creation whose
    (name, login) pair is not that of a stored user, whose name, login and
    password are free of U+0000 and made while the users sequence is not
    past 2147483647, succeeds: it answers 201 and appends the user, with
    the next value of the users sequence as its id and a freshly generated
    token. *)
Theorem create_user_succeeds `{DbConfig} (env : Env) (s : Store) (nu : SchemaUser) :
  reachable s ->
  (forall u, In u (users s) -> u_name u <> su_name nu \/ u_login u <> su_login nu) ->
  text_ok (su_name nu) && text_ok (su_login nu) && text_ok (su_password nu) = true ->
  users_id_seq s <= int4_max ->
  Router.create_user Up env s nu =
  (HOk 201 (BResult (mkResult 201 "Успешно" (Some "Пользователь успешно создан"%string))),
   mkStore (users s ++ [mkUser (users_id_seq s) (su_name nu) (str_uuid (uuid env))
                               (su_login nu) (su_password nu)])
           (posts s) (users_id_seq s + 1) (post_id_seq s)).
Proof.
  intros Hr Hnew Ht Hseq.
  destruct (reachable_store_ok s Hr) as [_ [[_ [Hus _]] _]].
  assert (Hex : existsb (same_name_login (su_name nu) (su_login nu)) (users s) = false).
  { apply existsb_forall_false. intros u Hu. unfold same_name_login.
    destruct (Hnew u Hu) as [Hn|Hl].
    - apply String.eqb_neq in Hn. now rewrite Hn.
    - apply String.eqb_neq in Hl. rewrite Hl. apply andb_false_r. }
  assert (Hclash : existsb (fun u => u_id u =? users_id_seq s) (users s) = false).
  { apply existsb_forall_false. intros u Hu. apply Z.eqb_neq.
    specialize (Hus u Hu). lia. }
  assert (Hlt : (int4_max <? users_id_seq s) = false) by (apply Z.ltb_ge; lia).
  rewrite router_create_user_up. unfold flush. rewrite parse_str_uuid, Ht.
  simpl negb. cbv iota. rewrite Hlt, Hclash, Hex. cbv iota beta zeta.
  rewrite str_uuid_mod. reflexivity.
Qed.

(** X16: a user creation answered 409 and a post creation answered 404
    (the database being up) leave both tables unchanged but still consume
    the next value of the users, respectively post, sequence: the next
    row created gets an id one higher. *)
Theorem failed_inserts_consume_ids `{DbConfig} :
  (forall (env : Env) (s s' : Store) (nu : SchemaUser),
     Router.create_user Up env s nu = (HErr 409, s') ->
     s' = mkStore (users s) (posts s) (users_id_seq s + 1) (post_id_seq s)) /\
  (forall (env : Env) (s s' : Store) (token : string) (sp : SchemaPost),
     Router.create_post Up env s token sp = (HErr 404, s') ->
     s' = mkStore (users s) (posts s) (users_id_seq s) (post_id_seq s + 1)).
Proof.
  split.
  - intros env s s' nu. rewrite router_create_user_up.
    generalize (str_uuid (uuid env)) as tok. intros tok.
    unfold flush. destruct (parse_uuid tok); [|discriminate].
    destruct (negb _); [discriminate|]. destruct (int4_max <? users_id_seq s); [discriminate|].
    destruct (_ || _); [|discriminate]. intros E. now injection E.
  - intros env s s' token sp. unfold Router.create_post.
    destruct (MiddleLoyeUser.check_token Up s token) as [[|] c1] eqn:Ec; [|discriminate].
    assert (Hc1 : c1 = Up) by (pose proof (check_token_up_conn s token) as Hup;
                               rewrite Ec in Hup; exact Hup).
    subst c1. unfold MiddleLoyePost.new_post, DataBasePost.create_post. rewrite commit_up.
    unfold flush. destruct (negb _); [discriminate|].
    destruct (int4_max <? post_id_seq s); [discriminate|].
    destruct (_ || _); [|discriminate]. intros E. now injection E.
Qed.

(** ** Fetching a stored post *)

(** X17: on a reachable store with the database up, fetching a stored
    post by its id answers 200 with its title, text and creation minute;
    its author is always a stored user, and the author shown is that
    user's name, or the placeholder "Неизвестный автор" exactly when that
    name is empty. *)
Theorem get_stored_post `{DbConfig} (s : Store) (p : Post) :
  reachable s -> In p (posts s) ->
  exists u, In u (users s) /\ u_id u = p_author p /\
    Router.get_post Up s (p_id p) =
    HOk 200 (BPost (mkPostView (p_title p) (p_text p)
                       (if String.eqb (u_name u) "" then "Неизвестный автор"%string
                        else u_name u)
                       (strftime_minute (p_created_at p)))).
Proof.
  intros Hr Hin. destruct (reachable_store_ok s Hr) as [Hfk [[Hnu [_ [Hnp _]]] _]].
  destruct (Hfk p Hin) as [u [Hu Hid]].
  exists u. split; [exact Hu|]. split; [exact Hid|].
  apply (router_get_post_found s p u Hin); [|exact Hu|exact Hid|exact Hnu].
  intros q Hq Hqe. exact (NoDup_map_inj p_id _ q p Hnp Hq Hin Hqe).
Qed.

(** ** An update that changes nothing *)

(** X18: on a reachable store, with a stored token and the database up, a
    PATCH of an existing post whose title and text are the post's own
    answers 200 and leaves the store exactly as it was (the ORM writes no
    column). *)
Theorem unchanged_update_noop `{DbConfig} (s : Store) (token : string) (p : Post) :
  reachable s -> token_stored s token -> In p (posts s) ->
  Router.update_post Up s token (p_id p) (mkSchemaPostUpdate (p_id p) (p_title p) (p_text p)) =
  (HOk 200 (BResult (DataBasePost.ok_result 200)), s).
Proof.
  intros Hr Htok Hin.
  pose proof (proj1 (proj2 (proj2 (proj1 (proj2 (reachable_store_ok s Hr)))))) as Hnd.
  rewrite (router_update_post_up s token p _ _ Htok Hnd Hin).
  unfold DataBasePost.changed. rewrite !String.eqb_refl. reflexivity.
Qed.

(** * Examples: concrete runs of the API on PostgreSQL's configuration *)

#[local] Existing Instance pg_default.

Lemma demo_created_reachable : reachable demo_created.
Proof. unfold demo_created. apply reach_step, reach_init. Qed.

Lemma demo_posted_reachable : reachable demo_posted.
Proof. unfold demo_posted. apply reach_step, demo_created_reachable. Qed.

Lemma demo_post_ids_nodup : NoDup (map p_id (posts demo_store)).
Proof. simpl. repeat constructor; simpl; intros H; intuition discriminate. Qed.

Lemma demo_alice_token_stored : token_stored demo_store (str_uuid 7).
Proof.
  exists demo_alice, 7. split; [left; reflexivity|].
  split; [vm_compute; reflexivity|reflexivity].
Qed.

Lemma demo_created_token_stored : token_stored demo_created (str_uuid 7).
Proof.
  exists (mkUser 1 "alice" (str_uuid 7) "L" "P"), 7.
  split; [vm_compute; left; reflexivity|].
  split; [vm_compute; reflexivity|reflexivity].
Qed.

Lemma demo_posted_token_stored : token_stored demo_posted (str_uuid 7).
Proof.
  exists (mkUser 1 "alice" (str_uuid 7) "L" "P"), 7.
  split; [vm_compute; left; reflexivity|].
  split; [vm_compute; reflexivity|reflexivity].
Qed.

Lemma demo_posted_post : In (mkPost 1 "t" 1 "x" 0) (posts demo_posted).
Proof. vm_compute. left. reflexivity. Qed.

Lemma demo_bogus_not_stored : ~ token_stored demo_store "bogus".
Proof. intros [u [v [_ [Hp _]]]]. vm_compute in Hp. discriminate. Qed.

Lemma empty_no_credentials : ~ has_credentials empty_store "L" "P".
Proof. intros [u [[] _]]. Qed.

Lemma demo_no_credentials : ~ has_credentials demo_store "Z" "Z".
Proof.
  intros [u [Hin [Hl _]]]. simpl in Hin.
  destruct Hin as [<-|[<-|[]]]; discriminate.
Qed.

(** ** Counterexamples *)

(** C2 (counterexample): the token "00000000000000000000000000000007" is
    no user's stored token (alice's is its hyphenated spelling), yet the
    users.token column is a UUID and the query parses the parameter as
    one: the token check passes and alice's post 1 is deleted. *)
Lemma token_spelling_counterexample :
  ~ In "00000000000000000000000000000007"%string (map u_token (users demo_store)) /\
  post_mutation Up (mkEnv 0 0 0) demo_store "00000000000000000000000000000007"
                (MutDelete 1) =
  (HOk 200 (BResult (DataBasePost.ok_result 200)),
   mkStore [demo_alice; demo_bob] [demo_post2] 3 3).
Proof.
  split.
  - intros H. vm_compute in H. intuition discriminate.
  - vm_compute. reflexivity.
Qed.

(** C3 (counterexample): two users "alice" and "bob" share login "L" and
    password "P" (allowed: only (name, login) is unique).  Both creations
    succeed, with uuids 7 and 8; logging in with ("L", "P") afterwards
    returns alice's token, not the token issued to bob. *)
Lemma login_shared_credentials_counterexample :
  let alice := mkSchemaUser "alice" "NoToken" "L" "P" in
  let bob := mkSchemaUser "bob" "NoToken" "L" "P" in
  let (r1, s1) := Router.create_user Up (mkEnv 0 0 7) empty_store alice in
  let (r2, s2) := Router.create_user Up (mkEnv 0 0 8) s1 bob in
  resp_status r1 = 201 /\ resp_status r2 = 201 /\
  Router.authenticate_user Up s2 (mkSchemaVerification "L" "P") =
    HOk 200 (BToken (str_uuid 7)) /\
  str_uuid 7 <> str_uuid 8.
Proof.
  vm_compute. repeat split; discriminate.
Qed.


(** C5 (counterexample): creating a user with alice's (name, login) and a
    password holding U+0000 is not answered 409: the value is refused when
    the parameters are bound, before the UNIQUE constraint is checked, and
    the answer is 500. *)
Lemma duplicate_nul_password_counterexample :
  In demo_alice (users demo_store) /\
  u_name demo_alice = "alice"%string /\ u_login demo_alice = "L"%string /\
  Router.create_user Up (mkEnv 0 0 9) demo_store
    (mkSchemaUser "alice" "t" "L" (String "000" EmptyString)) = (HErr 500, demo_store).
Proof.
  split; [left; reflexivity|]. split; [reflexivity|]. split; [reflexivity|].
  vm_compute. reflexivity.
Qed.

(** C6 (counterexample): bob's display name is the empty string.  After
    bob creates a post (id 3), fetching it shows the placeholder author
    "Неизвестный автор" instead of bob's name: [user_name or ...] treats
    the empty name as missing. *)
Lemma get_post_empty_name_counterexample :
  let (r, s') := Router.create_post Up (mkEnv 0 0 0) demo_store (str_uuid 8)
                                    (mkSchemaPost "t" "body" 2) in
  resp_status r = 201 /\ u_name demo_bob = ""%string /\
  Router.get_post Up s' 3 =
    HOk 200 (BPost (mkPostView "t" "body" "Неизвестный автор" 0)).
Proof. vm_compute. repeat split. Qed.

(** ** C7: the creation timestamp of a post *)

(** C7: posts created at wall-clock times 60 s and 2 h after the module was
    imported both get [created_at] = 0, the import time: the column default
    [datetime.utcnow()] was evaluated once, at import. *)
Theorem created_at_is_import_time :
  let (r1, s1) := Router.create_post Up (mkEnv 0 60000000 0) demo_store (str_uuid 7)
                                     (mkSchemaPost "first" "x" 1) in
  let (r2, s2) := Router.create_post Up (mkEnv 0 7200000000 0) s1 (str_uuid 7)
                                     (mkSchemaPost "second" "y" 1) in
  resp_status r1 = 201 /\ resp_status r2 = 201 /\
  map (fun p => (p_id p, p_created_at p)) (posts s2) =
    [(1, 0); (2, 120000000); (3, 0); (4, 0)].
Proof. vm_compute. repeat split. Qed.

(** ** C8: database errors *)

(** C8: what the code answers when the connection fails.  A refused
    connection raises [OSError], which the database layer's [except
    SQLAlchemyError] lets through: the listing answers 400 and the user
    deletion 500.  A connection lost at the commit that deletes user 1,
    after the commit that deleted the user's posts, answers 500 with post 1
    deleted and user 1 kept.  A lost connection makes the login answer 401,
    the listing 200 with no post and a post creation 403 (its token check
    is the first query), none of them 404, 409 or 500. *)
Theorem db_error_answers :
  Router.get_posts [Refused] demo_store "created_at" None None = HErr 400 /\
  Router.delete_user [Refused] demo_store 1 = (HErr 500, demo_store) /\
  Router.delete_user [Reach; Reach; Reach; Lost] demo_store 1 =
    (HErr 500, mkStore [demo_alice; demo_bob] [demo_post2] 3 3) /\
  Router.authenticate_user [Lost] demo_store (mkSchemaVerification "L" "P") = HErr 401 /\
  Router.get_posts [Lost] demo_store "created_at" None None = HOk 200 (BPosts []) /\
  Router.create_post [Lost] (mkEnv 0 0 0) demo_store (str_uuid 7)
    (mkSchemaPost "t" "x" 1) = (HErr 403, demo_store).
Proof. vm_compute. repeat split. Qed.

(** ** Witnesses: each theorem with hypotheses, applied at a concrete input *)

Lemma delete_user_cascade_witness :
  NoDup (map p_id (posts demo_store)) /\ In demo_alice (users demo_store) /\
  u_id demo_alice = 1 /\
  Router.delete_user Up demo_store 1 =
  (HOk 200 (BMessage "User and all their posts were deleted"),
   store_without_user demo_store 1).
Proof.
  split; [exact demo_post_ids_nodup|]. split; [left; reflexivity|].
  split; [reflexivity|].
  apply (delete_user_cascade demo_store 1 demo_alice);
    [exact demo_post_ids_nodup | left; reflexivity | reflexivity].
Defined.

Lemma post_mutation_token_gate_witness :
  ~ token_stored demo_store "bogus" /\
  post_mutation Up (mkEnv 0 0 0) demo_store "bogus" (MutDelete 1) = (HErr 403, demo_store) /\
  token_stored demo_store (str_uuid 7) /\
  Router.verify_token Up demo_store (str_uuid 7) = true /\
  reachable demo_created /\
  Router.verify_token Up demo_created (str_uuid 7) = true.
Proof.
  split; [exact demo_bogus_not_stored|]. split.
  - apply (proj1 (post_mutation_token_gate Up (mkEnv 0 0 0) demo_store "bogus")).
    exact demo_bogus_not_stored.
  - split; [exact demo_alice_token_stored|]. split.
    + apply (proj1 (proj2 (post_mutation_token_gate Up (mkEnv 0 0 0) demo_store
                             (str_uuid 7)))).
      exact demo_alice_token_stored.
    + split; [exact demo_created_reachable|].
      apply (proj2 (proj2 (post_mutation_token_gate Up (mkEnv 0 0 0) demo_created
                             (str_uuid 7))) demo_created_reachable
               (mkUser 1 "alice" (str_uuid 7) "L" "P")).
      vm_compute. left. reflexivity.
Defined.

Lemma login_returns_issued_token_witness :
  ~ has_credentials empty_store "L" "P" /\
  Router.authenticate_user Up
    (snd (Router.create_user Up (mkEnv 0 0 7) empty_store
                             (mkSchemaUser "alice" "NoToken" "L" "P")))
    (mkSchemaVerification "L" "P") = HOk 200 (BToken (str_uuid 7)) /\
  reachable demo_created /\ has_credentials demo_created "L" "P" /\
  (exists u, In u (users demo_created) /\ u_login u = "L"%string /\
             u_password u = "P"%string /\
             Router.authenticate_user Up demo_created (mkSchemaVerification "L" "P") =
             HOk 200 (BToken (u_token u))) /\
  ~ has_credentials demo_store "Z" "Z" /\
  Router.authenticate_user [Lost] demo_store (mkSchemaVerification "Z" "Z") = HErr 401.
Proof.
  assert (Hc : has_credentials demo_created "L" "P").
  { exists (mkUser 1 "alice" (str_uuid 7) "L" "P").
    split; [vm_compute; left; reflexivity|split; reflexivity]. }
  split; [exact empty_no_credentials|]. split.
  - eapply (proj1 login_returns_issued_token (mkEnv 0 0 7) empty_store _
              (mkSchemaUser "alice" "NoToken" "L" "P")).
    + vm_compute. reflexivity.
    + exact empty_no_credentials.
  - split; [exact demo_created_reachable|]. split; [exact Hc|]. split.
    + exact (proj1 (proj2 login_returns_issued_token) demo_created "L"%string "P"%string
               demo_created_reachable Hc).
    + split; [exact demo_no_credentials|].
      apply (proj2 (proj2 login_returns_issued_token) [Lost] demo_store
               (mkSchemaVerification "Z" "Z")).
      exact demo_no_credentials.
Defined.


Lemma name_login_unique_witness :
  reachable demo_created /\ NoDup (name_login_pairs demo_created) /\
  In demo_alice (users demo_store) /\
  text_ok "alice" && text_ok "L" && text_ok "other" = true /\
  users_id_seq demo_store <= int4_max /\
  (exists s', Router.create_user Up (mkEnv 0 0 9) demo_store
                (mkSchemaUser "alice" "NoToken" "L" "other") = (HErr 409, s') /\
              users s' = users demo_store) /\
  text_ok "alice" && text_ok "L" && text_ok (String "000" EmptyString) = false /\
  Router.create_user [Lost] (mkEnv 0 0 9) demo_store
    (mkSchemaUser "alice" "NoToken" "L" (String "000" EmptyString)) = (HErr 500, demo_store).
Proof.
  split; [exact demo_created_reachable|]. split.
  - apply (proj1 name_login_unique). exact demo_created_reachable.
  - split; [left; reflexivity|]. split; [vm_compute; reflexivity|].
    split; [vm_compute; discriminate|]. split.
    + apply (proj1 (proj2 name_login_unique) (mkEnv 0 0 9) demo_store
               (mkSchemaUser "alice" "NoToken" "L" "other") demo_alice);
        [left; reflexivity | reflexivity | reflexivity | vm_compute; reflexivity
        | vm_compute; discriminate].
    + split; [vm_compute; reflexivity|].
      apply (proj2 (proj2 name_login_unique)). vm_compute. reflexivity.
Defined.

Lemma create_then_get_post_witness :
  reachable demo_created /\
  Router.create_post Up (mkEnv 0 0 0) demo_created (str_uuid 7) (mkSchemaPost "t" "x" 1) =
    (HOk 201 (BResult (DataBasePost.ok_result 201)), demo_posted) /\
  exists p u,
    In p (posts demo_posted) /\ p_id p = post_id_seq demo_created /\
    p_title p = "t"%string /\ p_text p = "x"%string /\ p_author p = 1 /\
    In u (users demo_posted) /\ u_id u = 1 /\
    Router.get_post Up demo_posted (p_id p) =
    HOk 200 (BPost (mkPostView "t" "x" (shown_author u) (strftime_minute (p_created_at p)))).
Proof.
  assert (Hc : Router.create_post Up (mkEnv 0 0 0) demo_created (str_uuid 7)
                 (mkSchemaPost "t" "x" 1) =
               (HOk 201 (BResult (DataBasePost.ok_result 201)), demo_posted))
    by (vm_compute; reflexivity).
  split; [exact demo_created_reachable|]. split; [exact Hc|].
  exact (create_then_get_post Up (mkEnv 0 0 0) demo_created demo_posted (str_uuid 7)
           (mkSchemaPost "t" "x" 1) _ demo_created_reachable Hc).
Defined.

Lemma new_user_token_generated_witness :
  Router.create_user Up (mkEnv 0 0 7) empty_store (mkSchemaUser "alice" "mine" "L" "P") =
  Router.create_user Up (mkEnv 0 0 7) empty_store (mkSchemaUser "alice" "other" "L" "P") /\
  exists u, users (snd (Router.create_user Up (mkEnv 0 0 7) empty_store
                          (mkSchemaUser "alice" "mine" "L" "P"))) = [] ++ [u] /\
            u_token u = str_uuid 7.
Proof.
  destruct (new_user_token_generated Up (mkEnv 0 0 7) empty_store "alice" "L" "P"
              "mine" "other") as [Heq Hok].
  split; [exact Heq|].
  eapply Hok. vm_compute. reflexivity.
Defined.

Lemma update_post_frame_witness :
  users (snd (Router.update_post Up demo_store (str_uuid 7) 1
                (mkSchemaPostUpdate 1 "new" "text"))) = users demo_store /\
  Forall2 (fun p p' => p_id p' = p_id p /\ p_author p' = p_author p /\
                       p_created_at p' = p_created_at p /\ (p_id p <> 1 -> p' = p))
          (posts demo_store)
          (posts (snd (Router.update_post Up demo_store (str_uuid 7) 1
                         (mkSchemaPostUpdate 1 "new" "text")))).
Proof.
  eapply (update_post_frame Up demo_store _ (str_uuid 7) 1
            (mkSchemaPostUpdate 1 "new" "text")).
  vm_compute. reflexivity.
Defined.

Lemma reachable_post_author_exists_witness :
  reachable demo_posted /\
  forall p, In p (posts demo_posted) ->
    exists u, In u (users demo_posted) /\ u_id u = p_author p.
Proof.
  split; [exact demo_posted_reachable|].
  apply (reachable_post_author_exists demo_posted). exact demo_posted_reachable.
Defined.

Lemma reachable_ids_fresh_witness :
  reachable demo_posted /\
  NoDup (map u_id (users demo_posted)) /\
  (forall u, In u (users demo_posted) -> u_id u < users_id_seq demo_posted) /\
  NoDup (map p_id (posts demo_posted)) /\
  (forall p, In p (posts demo_posted) -> p_id p < post_id_seq demo_posted).
Proof.
  split; [exact demo_posted_reachable|].
  apply (reachable_ids_fresh demo_posted). exact demo_posted_reachable.
Defined.

Lemma reachable_tokens_generated_witness :
  reachable demo_created /\
  forall u, In u (users demo_created) ->
    exists g, u_token u = str_uuid g /\ String.eqb (u_token u) "" = false /\
              has_char "=" (u_token u) = false.
Proof.
  split; [exact demo_created_reachable|].
  apply (reachable_tokens_generated demo_created). exact demo_created_reachable.
Defined.

Lemma login_reachable_witness :
  reachable demo_created /\
  Router.authenticate_user Up demo_created (mkSchemaVerification "L" "P") =
    HOk 200 (BToken (str_uuid 7)) /\
  exists u, In u (users demo_created) /\ u_login u = "L"%string /\
            u_password u = "P"%string /\ u_token u = str_uuid 7 /\
            Router.verify_token Up demo_created (str_uuid 7) = true.
Proof.
  assert (H : Router.authenticate_user Up demo_created (mkSchemaVerification "L" "P") =
              HOk 200 (BToken (str_uuid 7))) by (vm_compute; reflexivity).
  split; [exact demo_created_reachable|]. split; [exact H|].
  apply (proj1 (login_reachable demo_created (mkSchemaVerification "L" "P")
                  demo_created_reachable) (str_uuid 7) H).
Defined.

Lemma delete_post_removes_witness :
  token_stored demo_store (str_uuid 7) /\ In demo_post1 (posts demo_store) /\
  p_id demo_post1 = 1 /\
  let s' := mkStore (users demo_store)
                    (filter (fun p => negb (p_id p =? 1)) (posts demo_store))
                    (users_id_seq demo_store) (post_id_seq demo_store) in
  (exists body, Router.delete_post Up demo_store (str_uuid 7) 1 = (HOk 200 body, s')) /\
  Router.get_post Up s' 1 = HErr 404 /\
  Router.delete_post Up s' (str_uuid 7) 1 = (HErr 404, s').
Proof.
  split; [exact demo_alice_token_stored|]. split; [left; reflexivity|].
  split; [reflexivity|].
  apply (proj2 (delete_post_removes demo_store (str_uuid 7) 1 demo_alice_token_stored)).
  exists demo_post1. split; [left|]; reflexivity.
Defined.

Lemma update_post_rejections_witness :
  token_stored demo_store (str_uuid 7) /\
  Router.update_post Up demo_store (str_uuid 7) 1 (mkSchemaPostUpdate 2 "t" "x") =
    (HErr 400, demo_store) /\
  (forall p, In p (posts demo_store) -> p_id p <> 9) /\
  Router.update_post Up demo_store (str_uuid 7) 9 (mkSchemaPostUpdate 9 "t" "x") =
    (HErr 404, demo_store).
Proof.
  assert (Hno : forall p, In p (posts demo_store) -> p_id p <> 9).
  { intros p [<-|[<-|[]]]; simpl; lia. }
  split; [exact demo_alice_token_stored|]. split.
  - apply (proj1 (update_post_rejections demo_store (str_uuid 7) 1
                    (mkSchemaPostUpdate 2 "t" "x") demo_alice_token_stored)).
    simpl. lia.
  - split; [exact Hno|].
    apply (proj2 (update_post_rejections demo_store (str_uuid 7) 9
                    (mkSchemaPostUpdate 9 "t" "x") demo_alice_token_stored));
      [exact Hno|reflexivity].
Defined.

Lemma update_then_get_post_witness :
  reachable demo_posted /\ token_stored demo_posted (str_uuid 7) /\
  In (mkPost 1 "t" 1 "x" 0) (posts demo_posted) /\
  text_ok "new" && text_ok "x" = true /\
  (exists body s',
    Router.update_post Up demo_posted (str_uuid 7) 1 (mkSchemaPostUpdate 1 "new" "x") =
      (HOk 200 body, s') /\
    exists u, In u (users demo_posted) /\ u_id u = 1 /\
      Router.get_post Up s' 1 =
      HOk 200 (BPost (mkPostView "new" "x" (shown_author u) (strftime_minute 0)))) /\
  text_ok (String "000" EmptyString) && text_ok "x" = false /\
  Router.update_post Up demo_posted (str_uuid 7) 1
    (mkSchemaPostUpdate 1 (String "000" EmptyString) "x") = (HErr 500, demo_posted).
Proof.
  destruct (update_then_get_post demo_posted (str_uuid 7) (mkPost 1 "t" 1 "x" 0)
              "new" "x" demo_posted_reachable demo_posted_token_stored demo_posted_post)
    as [Hok _].
  destruct (update_then_get_post demo_posted (str_uuid 7) (mkPost 1 "t" 1 "x" 0)
              (String "000" EmptyString) "x" demo_posted_reachable
              demo_posted_token_stored demo_posted_post) as [_ Hnul].
  split; [exact demo_posted_reachable|]. split; [exact demo_posted_token_stored|].
  split; [exact demo_posted_post|]. split; [vm_compute; reflexivity|]. split.
  - apply Hok. vm_compute. reflexivity.
  - split; [vm_compute; reflexivity|]. apply Hnul. vm_compute. reflexivity.
Defined.

Lemma list_posts_nonpositive_limit_witness :
  Router.get_posts Up demo_store "title" (Some (-1)) None = HOk 200 (BPosts []) /\
  Router.get_posts Up demo_store "" (Some 0) (Some 1) = HOk 200 (BPosts []).
Proof.
  split.
  - apply list_posts_nonpositive_limit; [right; right; reflexivity|lia].
  - apply list_posts_nonpositive_limit; [left; reflexivity|lia].
Defined.

Lemma delete_missing_user_witness :
  reachable demo_posted /\ (forall u, In u (users demo_posted) -> u_id u <> 9) /\
  Router.delete_user Up demo_posted 9 = (HErr 404, demo_posted).
Proof.
  assert (Hno : forall u, In u (users demo_posted) -> u_id u <> 9).
  { intros u Hu. vm_compute in Hu. destruct Hu as [<-|[]]. simpl. lia. }
  split; [exact demo_posted_reachable|]. split; [exact Hno|].
  exact (delete_missing_user demo_posted 9 demo_posted_reachable Hno).
Defined.

Lemma create_then_delete_user_witness :
  reachable demo_posted /\
  Router.create_user Up (mkEnv 0 0 5) demo_posted (mkSchemaUser "bob" "x" "M" "Q") =
    (HOk 201 (BResult (mkResult 201 "Успешно" (Some "Пользователь успешно создан"%string))),
     snd (Router.create_user Up (mkEnv 0 0 5) demo_posted (mkSchemaUser "bob" "x" "M" "Q"))) /\
  exists s2,
    Router.delete_user Up
      (snd (Router.create_user Up (mkEnv 0 0 5) demo_posted (mkSchemaUser "bob" "x" "M" "Q")))
      (users_id_seq demo_posted) =
      (HOk 200 (BMessage "User and all their posts were deleted"), s2) /\
    users s2 = users demo_posted /\ posts s2 = posts demo_posted.
Proof.
  assert (Hc : Router.create_user Up (mkEnv 0 0 5) demo_posted (mkSchemaUser "bob" "x" "M" "Q") =
    (HOk 201 (BResult (mkResult 201 "Успешно" (Some "Пользователь успешно создан"%string))),
     snd (Router.create_user Up (mkEnv 0 0 5) demo_posted (mkSchemaUser "bob" "x" "M" "Q"))))
    by (vm_compute; reflexivity).
  split; [exact demo_posted_reachable|]. split; [exact Hc|].
  exact (create_then_delete_user (mkEnv 0 0 5) demo_posted _ _ _ demo_posted_reachable Hc).
Defined.

Lemma create_then_delete_post_witness :
  reachable demo_posted /\
  Router.create_post Up (mkEnv 0 0 0) demo_posted (str_uuid 7) (mkSchemaPost "u" "y" 1) =
    (HOk 201 (BResult (DataBasePost.ok_result 201)),
     snd (Router.create_post Up (mkEnv 0 0 0) demo_posted (str_uuid 7)
                             (mkSchemaPost "u" "y" 1))) /\
  exists body' s2,
    Router.delete_post Up
      (snd (Router.create_post Up (mkEnv 0 0 0) demo_posted (str_uuid 7)
                               (mkSchemaPost "u" "y" 1)))
      (str_uuid 7) (post_id_seq demo_posted) = (HOk 200 body', s2) /\
    users s2 = users demo_posted /\ posts s2 = posts demo_posted.
Proof.
  assert (Hc : Router.create_post Up (mkEnv 0 0 0) demo_posted (str_uuid 7)
                                  (mkSchemaPost "u" "y" 1) =
    (HOk 201 (BResult (DataBasePost.ok_result 201)),
     snd (Router.create_post Up (mkEnv 0 0 0) demo_posted (str_uuid 7)
                             (mkSchemaPost "u" "y" 1)))) by (vm_compute; reflexivity).
  split; [exact demo_posted_reachable|]. split; [exact Hc|].
  exact (create_then_delete_post (mkEnv 0 0 0) demo_posted _ _ _ _ demo_posted_reachable Hc).
Defined.

Lemma list_posts_entries_witness :
  reachable demo_posted /\
  Router.get_posts Up demo_posted "title" None (Some 1) =
    HOk 200 (BPosts [mkPostSummary "t" 1 0]) /\
  (forall e, In e [mkPostSummary "t" 1 0] ->
     exists p, In p (posts demo_posted) /\ (forall a, Some 1 = Some a -> p_author p = a) /\
               e = MiddleLoyePost.summary p) /\
  NoDup (map ps_id [mkPostSummary "t" 1 0]).
Proof.
  assert (Hg : Router.get_posts Up demo_posted "title" None (Some 1) =
               HOk 200 (BPosts [mkPostSummary "t" 1 0])) by (vm_compute; reflexivity).
  split; [exact demo_posted_reachable|]. split; [exact Hg|].
  exact (list_posts_entries demo_posted "title" None (Some 1) _ demo_posted_reachable Hg).
Defined.

Lemma create_post_succeeds_witness :
  reachable demo_created /\ token_stored demo_created (str_uuid 7) /\
  (exists u, In u (users demo_created) /\ u_id u = 1) /\
  text_ok "t" && text_ok "x" = true /\ post_id_seq demo_created <= int4_max /\
  Router.create_post Up (mkEnv 5 9 0) demo_created (str_uuid 7) (mkSchemaPost "t" "x" 1) =
  (HOk 201 (BResult (DataBasePost.ok_result 201)),
   mkStore (users demo_created)
           (posts demo_created ++ [mkPost (post_id_seq demo_created) "t" 1 "x" 5])
           (users_id_seq demo_created) (post_id_seq demo_created + 1)).
Proof.
  assert (Hu : exists u, In u (users demo_created) /\ u_id u = 1).
  { exists (mkUser 1 "alice" (str_uuid 7) "L" "P").
    split; [vm_compute; left|]; reflexivity. }
  assert (Hseq : post_id_seq demo_created <= int4_max)
    by (vm_compute; discriminate).
  split; [exact demo_created_reachable|]. split; [exact demo_created_token_stored|].
  split; [exact Hu|]. split; [vm_compute; reflexivity|]. split; [exact Hseq|].
  exact (create_post_succeeds (mkEnv 5 9 0) demo_created (str_uuid 7)
           (mkSchemaPost "t" "x" 1) demo_created_reachable demo_created_token_stored Hu
           eq_refl Hseq).
Defined.

Lemma create_user_succeeds_witness :
  reachable demo_created /\
  (forall u, In u (users demo_created) -> u_name u <> "bob"%string \/ u_login u <> "L"%string) /\
  text_ok "bob" && text_ok "L" && text_ok "R" = true /\
  users_id_seq demo_created <= int4_max /\
  Router.create_user Up (mkEnv 0 0 4) demo_created (mkSchemaUser "bob" "x" "L" "R") =
  (HOk 201 (BResult (mkResult 201 "Успешно" (Some "Пользователь успешно создан"%string))),
   mkStore (users demo_created ++
              [mkUser (users_id_seq demo_created) "bob" (str_uuid 4) "L" "R"])
           (posts demo_created) (users_id_seq demo_created + 1) (post_id_seq demo_created)).
Proof.
  assert (Hnew : forall u, In u (users demo_created) ->
                   u_name u <> "bob"%string \/ u_login u <> "L"%string).
  { intros u Hu. vm_compute in Hu. destruct Hu as [<-|[]]. left. discriminate. }
  assert (Hseq : users_id_seq demo_created <= int4_max)
    by (vm_compute; discriminate).
  split; [exact demo_created_reachable|]. split; [exact Hnew|].
  split; [vm_compute; reflexivity|]. split; [exact Hseq|].
  exact (create_user_succeeds (mkEnv 0 0 4) demo_created (mkSchemaUser "bob" "x" "L" "R")
           demo_created_reachable Hnew eq_refl Hseq).
Defined.

Lemma failed_inserts_consume_ids_witness :
  Router.create_user Up (mkEnv 0 0 4) demo_store (mkSchemaUser "alice" "x" "L" "R") =
    (HErr 409, mkStore (users demo_store) (posts demo_store) 4 3) /\
  mkStore (users demo_store) (posts demo_store) 4 3 =
    mkStore (users demo_store) (posts demo_store) (users_id_seq demo_store + 1)
            (post_id_seq demo_store) /\
  Router.create_post Up (mkEnv 0 0 0) demo_store (str_uuid 7) (mkSchemaPost "t" "x" 9) =
    (HErr 404, mkStore (users demo_store) (posts demo_store) 3 4) /\
  mkStore (users demo_store) (posts demo_store) 3 4 =
    mkStore (users demo_store) (posts demo_store) (users_id_seq demo_store)
            (post_id_seq demo_store + 1).
Proof.
  assert (H1 : Router.create_user Up (mkEnv 0 0 4) demo_store
                 (mkSchemaUser "alice" "x" "L" "R") =
               (HErr 409, mkStore (users demo_store) (posts demo_store) 4 3))
    by (vm_compute; reflexivity).
  assert (H2 : Router.create_post Up (mkEnv 0 0 0) demo_store (str_uuid 7)
                 (mkSchemaPost "t" "x" 9) =
               (HErr 404, mkStore (users demo_store) (posts demo_store) 3 4))
    by (vm_compute; reflexivity).
  split; [exact H1|]. split; [exact (proj1 failed_inserts_consume_ids _ _ _ _ H1)|].
  split; [exact H2|]. exact (proj2 failed_inserts_consume_ids _ _ _ _ _ H2).
Defined.

Lemma get_stored_post_witness :
  reachable demo_posted /\ In (mkPost 1 "t" 1 "x" 0) (posts demo_posted) /\
  exists u, In u (users demo_posted) /\ u_id u = 1 /\
    Router.get_post Up demo_posted 1 =
    HOk 200 (BPost (mkPostView "t" "x"
                       (if String.eqb (u_name u) "" then "Неизвестный автор"%string
                        else u_name u) (strftime_minute 0))).
Proof.
  split; [exact demo_posted_reachable|]. split; [exact demo_posted_post|].
  exact (get_stored_post demo_posted (mkPost 1 "t" 1 "x" 0) demo_posted_reachable
           demo_posted_post).
Defined.

Lemma unchanged_update_noop_witness :
  reachable demo_posted /\ token_stored demo_posted (str_uuid 7) /\
  In (mkPost 1 "t" 1 "x" 0) (posts demo_posted) /\
  Router.update_post Up demo_posted (str_uuid 7) 1 (mkSchemaPostUpdate 1 "t" "x") =
  (HOk 200 (BResult (DataBasePost.ok_result 200)), demo_posted).
Proof.
  split; [exact demo_posted_reachable|]. split; [exact demo_posted_token_stored|].
  split; [exact demo_posted_post|].
  exact (unchanged_update_noop demo_posted (str_uuid 7) (mkPost 1 "t" 1 "x" 0)
           demo_posted_reachable demo_posted_token_stored demo_posted_post).
Defined.
